(** * vamdclib.request: the request execution engine

    A shallow embedding of [src/vamdclib/request.py] (class [Request] and the
    module-level helpers [gettransitions] and [do_species_data_request]),
    followed by the properties of the request engine that the specification
    states about it.

    Conventions of the embedding.
    - Python [str] values are [string]s of 8-bit characters (ASCII text).
    - Python [int] values are [Z].
    - An attribute that may not exist yet on the instance ([self.querypath],
      [self.headers], [self.lastmodified], ...) is an [option]: [None] means
      that the attribute has never been assigned, so reading it raises
      [AttributeError].  An attribute holding Python's [None] is an inner
      [option].
    - A method is a function in the monad [M]: it takes the machine (the
      instance [self] together with the outside world) and gives back either
      a returned value or a raised exception, and the machine as the call
      left it.  State changes made before an exception is raised persist, as
      in Python.
    - The network, the registry of nodes, the XSAMS parser, the date parser
      and the settings module are collaborators: they are the fields of the
      class [Collaborators], and every definition is parametric in them. *)

From Stdlib Require Import ZArith String Ascii List Bool Lia DecimalString.
From stdpp Require Import base strings gmap list.

Open Scope string_scope.
Open Scope list_scope.
Open Scope Z_scope.

(** ** Python string primitives used by the module *)

Module Py.

(** [s[-1]]: the last character, [None] when [s] is empty (IndexError). *)
Fixpoint last_char (s : string) : option ascii :=
  match s with
  | EmptyString => None
  | String a EmptyString => Some a
  | String _ s' => last_char s'
  end.

(** [s.find(c)] for a one-character [c]: index of the first occurrence,
    [-1] when there is none. *)
Fixpoint find (c : ascii) (s : string) : Z :=
  match s with
  | EmptyString => -1
  | String a s' =>
      if Ascii.eqb a c then 0
      else let i := find c s' in if i <? 0 then -1 else i + 1
  end.

Fixpoint drop (n : nat) (s : string) : string :=
  match n, s with
  | O, _ => s
  | S _, EmptyString => EmptyString
  | S n', String _ s' => drop n' s'
  end.

(** [s[i:]] for an index [0 <= i] (the only use is [s[s.find('-')+1:]],
    whose index is never negative). *)
Definition slice_from (i : Z) (s : string) : string := drop (Z.to_nat i) s.

(** [c in s] for a one-character [c]. *)
Fixpoint contains (c : ascii) (s : string) : bool :=
  match s with
  | EmptyString => false
  | String a s' => Ascii.eqb a c || contains c s'
  end.

(** [s.split(c)] for a one-character separator. *)
Fixpoint split (c : ascii) (s : string) : list string :=
  match s with
  | EmptyString => [EmptyString]
  | String a s' =>
      if Ascii.eqb a c then EmptyString :: split c s'
      else match split c s' with
           | h :: t => String a h :: t
           | [] => [String a EmptyString]
           end
  end.

(** ASCII white space as skipped by [int()]: tab, LF, VT, FF, CR, space. *)
Definition is_space (a : ascii) : bool :=
  let n := nat_of_ascii a in
  (Nat.leb 9 n && Nat.leb n 13) || Nat.eqb n 32.

Definition digit_val (a : ascii) : option Z :=
  let n := nat_of_ascii a in
  if Nat.leb 48 n && Nat.leb n 57 then Some (Z.of_nat (n - 48)) else None.

Fixpoint lstrip (l : list ascii) : list ascii :=
  match l with
  | a :: l' => if is_space a then lstrip l' else l
  | [] => []
  end.

(** Decimal digits, with single underscores allowed between two digits.
    [prev] tells whether the previous character was a digit. *)
Fixpoint read_digits (l : list ascii) (acc : Z) (prev : bool)
  : option (Z * list ascii) :=
  match l with
  | [] => if prev then Some (acc, []) else None
  | a :: l' =>
      match digit_val a with
      | Some d => read_digits l' (acc * 10 + d) true
      | None =>
          if Ascii.eqb a "_" then
            (if prev then read_digits l' acc false else None)
          else if prev then Some (acc, l) else None
      end
  end.

(** [int(s)] in base 10: optional surrounding white space, an optional
    sign, digits.  [None] stands for ValueError.  (The interpreter's
    configurable limit on the number of digits is not modelled.) *)
Definition int (s : string) : option Z :=
  let l := lstrip (list_ascii_of_string s) in
  let '(sign, l1) :=
    match l with
    | "+"%char :: t => (1, t)
    | "-"%char :: t => (-1, t)
    | _ => (1, l)
    end in
  match read_digits l1 0 false with
  | Some (v, rest) => if forallb is_space rest then Some (sign * v) else None
  | None => None
  end.

(** ["%d" % z] *)
Definition fmt_d (z : Z) : string := NilZero.string_of_int (Z.to_int z).

End Py.

(** ** Exceptions *)

(** The exceptions that can travel through the module.  All of them are
    subclasses of Python's [Exception], so an [except Exception] clause
    catches every one of them. *)
Inductive Exn : Type :=
| TimeOutError                              (* request.TimeOutError *)
| NoContentError (expr : string)            (* request.NoContentError *)
| NodeDoesNotExistError                     (* request.NodeDoesNotExistError *)
| socket_timeout                            (* socket.timeout *)
| AttributeError (attr : string)            (* 'Request' object has no attribute attr *)
| TypeError (msg : string)
| ValueError (literal : string)             (* int() refused the literal *)
| IndexError (msg : string)
| RecursionError
| ExternalError (name msg : string).        (* raised inside a collaborator *)

(** [str(e)], as interpolated by ["%s" % e].  For [ValueError] the literal is
    shown between plain quotes (exact when it needs no escaping). *)
Definition exn_str (e : Exn) : string :=
  match e with
  | TimeOutError => "(408, 'Timeout')"
  | NoContentError expr => expr
  | NodeDoesNotExistError => ""
  | socket_timeout => "timed out"
  | AttributeError attr =>
      "'Request' object has no attribute '" +:+ attr +:+ "'"
  | TypeError msg => msg
  | ValueError lit =>
      "invalid literal for int() with base 10: '" +:+ lit +:+ "'"
  | IndexError msg => msg
  | RecursionError => "maximum recursion depth exceeded"
  | ExternalError _ msg => msg
  end.

(** The outcome of a call: a returned value or a raised exception. *)
Inductive Res (A : Type) : Type :=
| Ret (a : A)
| Raise (e : Exn).
Arguments Ret {A} a.
Arguments Raise {A} e.

(** ** Data model *)

(** Modelled from the spec: query.Query (query.py is not among the
    sources).  The query descriptor has four attributes, operation,
    language, output format and query text, the ones [__setquerypath]
    reads. *)
Module q.
Record Query : Type := mkQuery {
  Request : string;
  Lang : string;
  Format : string;
  QueryText : string          (* the attribute [Query] *)
}.
End q.

(** Modelled from the spec: results.Result (results.py is not among the
    sources).  The result wraps the bytes of the response, as [Content] or
    as [Xml], and holds the model that [populate_model] builds from them. *)
Module r.
(** The species model built by [populate_model]; opaque to this module. *)
Definition Model : Type := list (string * string).
Record Result : Type := mkResult {
  Content : option string;    (* set when parsexsams is false *)
  Xml : option string;        (* set when parsexsams is true *)
  data : option Model         (* filled by populate_model *)
}.
End r.

(** Modelled from the spec: nodes.Node (nodes.py is not among the sources).
    A node reference has an identifier and a base address that may be
    absent: [url = None] is a node object without a [url] attribute. *)
Module nodes.
Record Node : Type := mkNode {
  identifier : string;
  url : option string
}.
End nodes.

(** The [node] argument of [setnode]: a name to look up, a node object, or
    Python's [None]. *)
Inductive NodeArg : Type :=
| NodeStr (name : string)
| NodeObj (n : nodes.Node)
| NodeNone.

(** The [query] argument of [setquery]: a [query.Query], a [str], or an
    object of any other type (given by the name of its type). *)
Inductive QueryArg : Type :=
| QObj (qu : q.Query)
| QStr (s : string)
| QOther (type_name : string).

(** A species identifier: [str] or [int]. *)
Inductive SpeciesId : Type :=
| SidStr (s : string)
| SidInt (z : Z).

(** The result of [urlsplit]. *)
Record SplitResult : Type := mkSplit {
  scheme : string;
  netloc : string;
  path : string;
  query : string
}.

(** The connection object a transaction is sent over. *)
Inductive Conn : Type :=
| HTTPConnection (host : string) (timeout : Z)
| HTTPSConnection (host : string) (timeout : Z) (unverified_context : bool).

(** One request put on the wire: [conn.putrequest(method, target)]. *)
Record HttpReq : Type := mkReq {
  req_conn : Conn;
  req_method : string;
  req_target : string
}.

Definition conn_timeout (c : Conn) : Z :=
  match c with
  | HTTPConnection _ t => t
  | HTTPSConnection _ t _ => t
  end.

Definition req_timeout (rq : HttpReq) : Z := conn_timeout (req_conn rq).

(** An HTTP response: status line, [getheaders()], and what [read()]
    gives (it may itself fail). *)
Record Response : Type := mkResponse {
  resp_status : Z;
  resp_reason : string;
  resp_headers : list (string * string);
  resp_body : Exn + string
}.

(** What happens to a request: the connection or the sending fails (the
    exception leaves [putrequest]/[endheaders]), or waiting for the response
    fails (the exception leaves [getresponse]; [socket_timeout] is the
    socket timing out there), or a response arrives. *)
Inductive NetOutcome : Type :=
| SendFailed (e : Exn)
| AwaitFailed (e : Exn)
| Responded (res : Response).

(** A value stored in the header mapping: a header string, or the integer
    default. *)
Inductive HeaderVal : Type :=
| HStr (s : string)
| HInt (z : Z).

(** Time stamps as produced by the date parser. *)
Definition Timestamp : Type := Z.

(** The collaborators of the module. *)
Class Collaborators : Type := {
  (** settings.TIMEOUT *)
  settings_TIMEOUT : Z;
  (** the defaults [query.Query(Query=...)] gives to the other attributes *)
  Query_Request : string;
  Query_Lang : string;
  Query_Format : string;
  (** urllib.parse.quote *)
  quote : string -> string;
  (** http.client.urlsplit *)
  urlsplit : string -> Exn + SplitResult;
  (** the network: the fate of a request, given the requests sent before *)
  server : list HttpReq -> HttpReq -> NetOutcome;
  (** results.Result.populate_model, as a function of the document *)
  populate_model : string -> Exn + r.Model;
  (** dateutil.parser.parse *)
  parse : string -> Exn + Timestamp;
  (** nodes.Nodelist().findnode *)
  findnode : string -> Exn + option nodes.Node
}.

(** The instance of class [Request]. *)
Record Request : Type := mkRequest {
  status : Z;
  reason : string;
  verifyhttps : bool;
  baseurl : option string;                       (* None is Python's None *)
  node : option (option nodes.Node);
  query_ : option q.Query;                       (* the attribute [query] *)
  querypath : option string;
  xml : option (option string);
  headers : option (gmap string HeaderVal);
  lastmodified : option (option Timestamp)
}.

(** The outside world: the requests sent so far, and standard output. *)
Record World : Type := mkWorld {
  sent : list HttpReq;
  stdout : list string
}.

Record Machine : Type := mkMachine {
  self : Request;
  world : World
}.

(** ** The monad of methods *)

Definition M (A : Type) : Type := Machine -> Res A * Machine.

Definition ret {A} (a : A) : M A := fun m => (Ret a, m).
Definition raise {A} (e : Exn) : M A := fun m => (Raise e, m).
Definition bind {A B} (c : M A) (k : A -> M B) : M B :=
  fun m => match c m with
           | (Ret a, m') => k a m'
           | (Raise e, m') => (Raise e, m')
           end.

(** [try: c  except Exception as e: h e] *)
Definition try_except {A} (c : M A) (h : Exn -> M A) : M A :=
  fun m => match c m with
           | (Ret a, m') => (Ret a, m')
           | (Raise e, m') => h e m'
           end.

Notation "x <- c ;; k" := (bind c (fun x => k))
  (at level 100, c at next level, right associativity).
Notation "c ;;; k" := (bind c (fun _ => k))
  (at level 100, right associativity).

Definition of_sum {A} (x : Exn + A) : M A :=
  match x with
  | inl e => raise e
  | inr a => ret a
  end.

(** Reading the instance, and assigning its attributes. *)
Definition get {A} (f : Request -> A) : M A := fun m => (Ret (f (self m)), m).

(** Reading an attribute that may not have been assigned yet. *)
Definition getattr {A} (attr : string) (f : Request -> option A) : M A :=
  fun m => match f (self m) with
           | Some a => (Ret a, m)
           | None => (Raise (AttributeError attr), m)
           end.

Definition modify (f : Request -> Request) : M unit :=
  fun m => (Ret tt, mkMachine (f (self m)) (world m)).

Definition with_status (v : Z) (s : Request) : Request :=
  mkRequest v (reason s) (verifyhttps s) (baseurl s) (node s) (query_ s)
            (querypath s) (xml s) (headers s) (lastmodified s).
Definition with_reason (v : string) (s : Request) : Request :=
  mkRequest (status s) v (verifyhttps s) (baseurl s) (node s) (query_ s)
            (querypath s) (xml s) (headers s) (lastmodified s).
Definition with_baseurl (v : option string) (s : Request) : Request :=
  mkRequest (status s) (reason s) (verifyhttps s) v (node s) (query_ s)
            (querypath s) (xml s) (headers s) (lastmodified s).
Definition with_node (v : option nodes.Node) (s : Request) : Request :=
  mkRequest (status s) (reason s) (verifyhttps s) (baseurl s) (Some v)
            (query_ s) (querypath s) (xml s) (headers s) (lastmodified s).
Definition with_query (v : q.Query) (s : Request) : Request :=
  mkRequest (status s) (reason s) (verifyhttps s) (baseurl s) (node s)
            (Some v) (querypath s) (xml s) (headers s) (lastmodified s).
Definition with_querypath (v : string) (s : Request) : Request :=
  mkRequest (status s) (reason s) (verifyhttps s) (baseurl s) (node s)
            (query_ s) (Some v) (xml s) (headers s) (lastmodified s).
Definition with_xml (v : option string) (s : Request) : Request :=
  mkRequest (status s) (reason s) (verifyhttps s) (baseurl s) (node s)
            (query_ s) (querypath s) (Some v) (headers s) (lastmodified s).
Definition with_headers (v : gmap string HeaderVal) (s : Request) : Request :=
  mkRequest (status s) (reason s) (verifyhttps s) (baseurl s) (node s)
            (query_ s) (querypath s) (xml s) (Some v) (lastmodified s).
Definition with_lastmodified (v : option Timestamp) (s : Request) : Request :=
  mkRequest (status s) (reason s) (verifyhttps s) (baseurl s) (node s)
            (query_ s) (querypath s) (xml s) (headers s) (Some v).

(** [print(line)] *)
Definition print (line : string) : M unit :=
  fun m => (Ret tt,
            mkMachine (self m)
                      (mkWorld (sent (world m)) (stdout (world m) ++ [line]))).

(** The line feed character, for the texts that contain [\n]. *)
Definition LF : string := String (ascii_of_nat 10) EmptyString.

(** ** Class Request *)

Section RequestEngine.
Context `{C : Collaborators}.

(** The eight statistics headers, defaulted to [0]. *)
Definition default_headers : list (string * HeaderVal) :=
  [("vamdc-count-species", HInt 0);
   ("vamdc-count-states", HInt 0);
   ("vamdc-truncated", HInt 0);
   ("vamdc-count-molecules", HInt 0);
   ("vamdc-count-sources", HInt 0);
   ("vamdc-approx-size", HInt 0);
   ("vamdc-count-radiative", HInt 0);
   ("vamdc-count-atoms", HInt 0)].

(** What [Request.__init__] assigns before looking at its arguments. *)
Definition Request_new (verify : bool) : Request :=
  mkRequest 0 "INIT" verify None None None None None None None.

(** [if self.baseurl[-1] == '/': self.baseurl += 'sync?'
     else: self.baseurl += '/sync?'] *)
Definition add_sync : M unit :=
  b <- get baseurl ;;
  match b with
  | None => raise (TypeError "'NoneType' object is not subscriptable")
  | Some s =>
      match Py.last_char s with
      | None => raise (IndexError "string index out of range")
      | Some c =>
          if Ascii.eqb c "/"
          then modify (with_baseurl (Some (s +:+ "sync?")))
          else modify (with_baseurl (Some (s +:+ "/sync?")))
      end
  end.

(** [str(node)] in the message of [setnode].  The module nodes is not among
    the sources; a node is shown by its identifier here.  The message is never
    printed for the nodes of this model (see [setnode_never_prints]). *)
Definition node_str (n : option nodes.Node) : string :=
  match n with
  | Some nd => nodes.identifier nd
  | None => "None"
  end.

Definition setnode (node : NodeArg) : M unit :=
  modify (with_status 0) ;;;
  modify (with_reason "INIT") ;;;
  node <- match node with
          | NodeStr name => of_sum (findnode name)
          | NodeObj n => ret (Some n)
          | NodeNone => ret None
          end ;;
  try_except
    (modify (with_node node) ;;;
     match node with
     | None => ret tt                               (* no attribute url *)
     | Some n =>
         match nodes.url n with
         | None => ret tt                           (* no attribute url *)
         | Some u =>
             if Nat.eqb (String.length u) 0 then ret tt
             else modify (with_baseurl (Some u)) ;;; add_sync
         end
     end)
    (fun e =>
       print ("There was a problem setting the node (" +:+ node_str node
              +:+ ")") ;;;
       raise e).

Definition setbaseurl (baseurl : string) : M unit :=
  modify (with_baseurl (Some baseurl)) ;;;
  add_sync.

(** [__setquerypath] *)
Definition setquerypath : M unit :=
  qu <- getattr "query" query_ ;;
  modify (with_querypath
            ("REQUEST=" +:+ q.Request qu +:+ "&LANG=" +:+ q.Lang qu
             +:+ "&FORMAT=" +:+ q.Format qu
             +:+ "&QUERY=" +:+ quote (q.QueryText qu))).

Definition setquery (query : QueryArg) : M unit :=
  modify (with_status 0) ;;;
  modify (with_reason "INIT") ;;;
  match query with
  | QObj qu =>
      modify (with_query qu) ;;;
      setquerypath
  | QStr s =>
      modify (with_query (q.mkQuery Query_Request Query_Lang Query_Format s)) ;;;
      setquerypath
  | QOther _ => ret tt
  end.

(** [Request.__init__(node, query, verifyhttps)] *)
Definition init (node : NodeArg) (query : option QueryArg) (verify : bool)
  : M unit :=
  modify (fun _ => Request_new verify) ;;;
  match node with
  | NodeNone => ret tt
  | _ => setnode node
  end ;;;
  match query with
  | None => ret tt
  | Some qa => setquery qa
  end.

(** [url = self.baseurl + self.querypath; urlobj = urlsplit(url)] *)
Definition split_url : M SplitResult :=
  b <- get baseurl ;;
  p <- getattr "querypath" querypath ;;
  match b with
  | None =>
      raise (TypeError
               "unsupported operand type(s) for +: 'NoneType' and 'str'")
  | Some b => of_sum (urlsplit (b +:+ p))
  end.

(** The connection chosen for a split url. *)
Definition conn_for (verify : bool) (urlobj : SplitResult) (timeout : Z)
  : Conn :=
  if String.eqb (scheme urlobj) "https" then
    if verify then HTTPSConnection (netloc urlobj) timeout false
    else HTTPSConnection (netloc urlobj) timeout true
  else HTTPConnection (netloc urlobj) timeout.

Definition connect (urlobj : SplitResult) (timeout : Z) : M Conn :=
  v <- get verifyhttps ;;
  ret (conn_for v urlobj timeout).

Definition target (urlobj : SplitResult) : string :=
  path urlobj +:+ "?" +:+ query urlobj.

(** [conn.putrequest(method, target); conn.endheaders()]: the request is
    put on the wire.  A failure of the connection or of the sending is
    raised here; otherwise what [getresponse] will find is returned. *)
Definition putrequest (conn : Conn) (method tgt : string)
  : M (Exn + Response) :=
  fun m =>
    let rq := mkReq conn method tgt in
    let m' := mkMachine (self m)
                (mkWorld (sent (world m) ++ [rq]) (stdout (world m))) in
    match server (sent (world m)) rq with
    | SendFailed e => (Raise e, m')
    | AwaitFailed e => (Ret (inl e), m')
    | Responded res => (Ret (inr res), m')
    end.

(** [conn.getresponse()] *)
Definition getresponse (pending : Exn + Response) : M Response :=
  of_sum pending.

(** [try: res = conn.getresponse()
     except socket.timeout: status = 408; reason = ...; raise TimeOutError] *)
Definition await (pending : Exn + Response) : M Response :=
  try_except (getresponse pending)
    (fun e =>
       match e with
       | socket_timeout =>
           modify (with_status 408) ;;;
           modify (with_reason "Socket timeout") ;;;
           raise TimeOutError
       | _ => raise e
       end).

(** [dorequest], with the depth of the Python call stack that is left. *)
Fixpoint dorequest_rec (depth : nat) (timeout : Z) (HttpMethod : string)
         (parsexsams : bool) : M (option r.Result) :=
  match depth with
  | O => raise RecursionError
  | S depth' =>
      modify (with_xml None) ;;;
      urlobj <- split_url ;;
      conn <- connect urlobj timeout ;;
      pending <- putrequest conn HttpMethod (target urlobj) ;;
      res <- await pending ;;
      modify (with_status (resp_status res)) ;;;
      modify (with_reason (resp_reason res)) ;;;
      if negb parsexsams then
        if resp_status res =? 200 then
          content <- of_sum (resp_body res) ;;
          ret (Some (r.mkResult (Some content) None None))
        else if (resp_status res =? 400) && String.eqb HttpMethod "POST" then
          dorequest_rec depth' settings_TIMEOUT "GET" parsexsams
        else ret None
      else
        if resp_status res =? 200 then
          body <- of_sum (resp_body res) ;;
          modify (with_xml (Some body)) ;;;
          model <- of_sum (populate_model body) ;;
          ret (Some (r.mkResult None (Some body) (Some model)))
        else if (resp_status res =? 400) && String.eqb HttpMethod "POST" then
          dorequest_rec depth' settings_TIMEOUT "GET" parsexsams
        else ret None
  end.

(** Two frames are all that [dorequest] ever needs (see
    [dorequest_rec_depth]). *)
Definition dorequest (timeout : Z) (HttpMethod : string) (parsexsams : bool)
  : M (option r.Result) :=
  dorequest_rec 2 timeout HttpMethod parsexsams.

(** [for key, value in headers: self.headers[key] = value] *)
Fixpoint store_headers (l : list (string * HeaderVal)) : M unit :=
  match l with
  | [] => ret tt
  | (key, value) :: l' =>
      h <- getattr "headers" headers ;;
      modify (with_headers (<[key := value]> h)) ;;;
      store_headers l'
  end.

Definition doheadrequest (timeout : Z) : M unit :=
  modify (with_headers ∅) ;;;
  urlobj <- split_url ;;
  conn <- connect urlobj timeout ;;
  pending <- putrequest conn "HEAD" (target urlobj) ;;
  res <- await pending ;;
  modify (with_status (resp_status res)) ;;;
  modify (with_reason (resp_reason res)) ;;;
  hs <- (if resp_status res =? 200 then
           ret (map (fun kv => (fst kv, HStr (snd kv))) (resp_headers res))
         else if resp_status res =? 204 then
           ret default_headers
         else if resp_status res =? 408 then
           print "TIMEOUT" ;;;
           ret default_headers
         else
           print ("STATUS: " +:+ Py.fmt_d (resp_status res)) ;;;
           ret default_headers) ;;
  store_headers hs.

(** [parse(value)] on a stored header value; the date parser refuses
    anything that is not text. *)
Definition parse_value (v : HeaderVal) : M Timestamp :=
  match v with
  | HStr s => of_sum (parse s)
  | HInt _ =>
      raise (TypeError
               "Parser must be a string or character stream, not int")
  end.

(** ["%s" % value] for a stored header value. *)
Definition headerval_str (v : HeaderVal) : string :=
  match v with
  | HStr s => s
  | HInt z => Py.fmt_d z
  end.

Definition getlastmodified : M (option Timestamp) :=
  st <- get status ;;
  (if negb (st =? 200) then doheadrequest settings_TIMEOUT else ret tt) ;;;
  h <- getattr "headers" headers ;;
  match h !! "last-modified" with
  | Some v =>
      try_except
        (ts <- parse_value v ;;
         modify (with_lastmodified (Some ts)))
        (fun e =>
           print ("Could not parse date " +:+ headerval_str v) ;;;
           print (exn_str e))
  | None =>
      st <- get status ;;
      if st =? 204 then raise (NoContentError "requets.getlastmodified")
      else modify (with_lastmodified None)
  end ;;;
  getattr "lastmodified" lastmodified.

Definition querystring_species : string :=
  "SELECT SPECIES WHERE ((InchiKey!='UGFAIRIUMAVXCW'))".

(** [Request.getspecies] *)
Definition getspecies : M (option r.Result) :=
  setquery (QStr querystring_species) ;;;
  result <- dorequest settings_TIMEOUT "POST" true ;;
  ret result.

(** ** Module-level helpers *)

(** A module-level function runs in a world; its local [Request()] starts
    from [Request_new].  The [_run] form also gives the local instance as
    the call left it. *)
Definition run {A} (c : M A) (w : World) : Res A * Machine :=
  c (mkMachine (Request_new true) w).

Definition result_of {A} (x : Res A * Machine) : Res A * World :=
  (fst x, world (snd x)).



(** ["%s" % species_id] *)
Definition sid_str (sid : SpeciesId) : string :=
  match sid with
  | SidStr s => s
  | SidInt z => Py.fmt_d z
  end.

(** The body of the first [try] of [do_species_data_request]. *)
Definition species_attempt (species_id : option SpeciesId)
  : M (option r.Result) :=
  match species_id with
  | None => ret None
  | Some sid =>
      id <- match sid with
            | SidStr s =>
                if Py.contains "-" s then
                  match nth_error (Py.split "-" s) 1 with
                  | Some x => ret x
                  | None => raise (IndexError "list index out of range")
                  end
                else ret s
            | SidInt _ =>
                raise (TypeError "argument of type 'int' is not iterable")
            end ;;
      print ("Processing: " +:+ sid_str sid) ;;;
      setquery (QStr ("SELECT ALL WHERE SpeciesID=" +:+ id)) ;;;
      dorequest settings_TIMEOUT "POST" true
  end.

(** The body of the second [try]. *)
Definition vamdcspecies_attempt (vamdcspecies_id : option string)
           (result : option r.Result) : M (option r.Result) :=
  match vamdcspecies_id, result with
  | Some v, None =>
      print ("Processing: " +:+ v) ;;;
      setquery (QStr ("SELECT ALL WHERE VAMDCSpeciesID='" +:+ v +:+ "'")) ;;;
      dorequest settings_TIMEOUT "POST" true
  | _, _ => ret result
  end.

Definition first_failure_line (e : Exn) : string :=
  "Query failed: " +:+ exn_str e +:+ " " +:+ LF +:+ LF
  +:+ " Try restrictable VamdcSpeciesID instead."
  +:+ "Not all nodes support restrictable-species-id.".

Definition do_species_data_request_run (node : NodeArg)
           (species_id : option SpeciesId) (vamdcspecies_id : option string)
  : World -> Res (option r.Result) * Machine :=
  run
    (init NodeNone None true ;;;
     setnode node ;;;
     result <- try_except (species_attempt species_id)
                 (fun e => print (first_failure_line e) ;;; ret None) ;;
     try_except (vamdcspecies_attempt vamdcspecies_id result)
       (fun e => print ("Query failed: " +:+ exn_str e) ;;; ret None)).

Definition do_species_data_request (node : NodeArg)
           (species_id : option SpeciesId) (vamdcspecies_id : option string)
           (w : World) : Res (option r.Result) * World :=
  result_of (do_species_data_request_run node species_id vamdcspecies_id w).

End RequestEngine.

(** ** Vocabulary of the properties *)

Section Vocabulary.
Context `{C : Collaborators}.

(** The session can build its url: both parts are there and they split. *)
Definition ready (m : Machine) (urlobj : SplitResult) : Prop :=
  exists b p,
    baseurl (self m) = Some b /\ querypath (self m) = Some p
    /\ urlsplit (b +:+ p) = inr urlobj.

(** The request a transaction of the session puts on the wire. *)
Definition request_of (m : Machine) (urlobj : SplitResult) (timeout : Z)
           (method : string) : HttpReq :=
  mkReq (conn_for (verifyhttps (self m)) urlobj timeout) method
        (target urlobj).

(** The machine once [rq] is on the wire, with the instance as [s]. *)
Definition put_on_wire (rq : HttpReq) (s : Request) (m : Machine) : Machine :=
  mkMachine s (mkWorld (sent (world m) ++ [rq]) (stdout (world m))).

(** The machine after [dorequest] sent [rq] and recorded the response. *)
Definition answered (m : Machine) (rq : HttpReq) (res : Response) : Machine :=
  put_on_wire rq
    (with_reason (resp_reason res)
       (with_status (resp_status res) (with_xml None (self m)))) m.

(** The machine after [dorequest] sent [rq] and the socket timed out. *)
Definition timed_out (m : Machine) (rq : HttpReq) : Machine :=
  put_on_wire rq
    (with_reason "Socket timeout"
       (with_status 408 (with_xml None (self m)))) m.

(** A request sent between [m] and [m'] timed out while its response was
    awaited. *)
Definition timeout_in (m m' : Machine) : Prop :=
  exists pre rq post,
    sent (world m') = pre ++ rq :: post
    /\ (length (sent (world m)) <= length pre)%nat
    /\ server pre rq = AwaitFailed socket_timeout.

(** The mapping after [for key, value in l: h[key] = value]. *)
Definition dict_update (h : gmap string HeaderVal)
           (l : list (string * HeaderVal)) : gmap string HeaderVal :=
  foldl (fun acc kv => <[fst kv := snd kv]> acc) h l.

(** The value a list of pairs gives to a key: that of the last pair with
    this key. *)
Fixpoint last_value {V} (k : string) (l : list (string * V)) : option V :=
  match l with
  | [] => None
  | (k', v) :: l' =>
      match last_value k l' with
      | Some v' => Some v'
      | None => if decide (k' = k) then Some v else None
      end
  end.

(** The eight statistics keys. *)
Definition statistics_keys : gset string :=
  {[ "vamdc-count-species"; "vamdc-count-states"; "vamdc-truncated";
     "vamdc-count-molecules"; "vamdc-count-sources"; "vamdc-approx-size";
     "vamdc-count-radiative"; "vamdc-count-atoms" ]}.

(** The pairs [doheadrequest] stores for a response, and what it prints. *)
Definition head_pairs (res : Response) : list (string * HeaderVal) :=
  if resp_status res =? 200
  then map (fun kv => (fst kv, HStr (snd kv))) (resp_headers res)
  else default_headers.

Definition head_lines (res : Response) : list string :=
  if resp_status res =? 200 then []
  else if resp_status res =? 204 then []
  else if resp_status res =? 408 then ["TIMEOUT"]
  else ["STATUS: " +:+ Py.fmt_d (resp_status res)].

(** The first [try] with its handler, and the second one. *)
Definition first_try (species_id : option SpeciesId) : M (option r.Result) :=
  try_except (species_attempt species_id)
    (fun e => print (first_failure_line e) ;;; ret None).

Definition final_try (vamdcspecies_id : option string)
           (result : option r.Result) : M (option r.Result) :=
  try_except (vamdcspecies_attempt vamdcspecies_id result)
    (fun e => print ("Query failed: " +:+ exn_str e) ;;; ret None).

(** The machine after one more line was printed. *)
Definition printed (line : string) (m : Machine) : Machine :=
  mkMachine (self m) (mkWorld (sent (world m)) (stdout (world m) ++ [line])).

(** The statement that a failure of the final attempt reaches the caller. *)
Definition final_failure_propagates : Prop :=
  forall node sid vid w m1 r1 m2 e m3,
    setnode node (mkMachine (Request_new true) w) = (Ret tt, m1) ->
    first_try sid m1 = (Ret r1, m2) ->
    vamdcspecies_attempt vid r1 m2 = (Raise e, m3) ->
    fst (do_species_data_request node sid vid w) = Raise e.

(** What is appended to an address. *)
Definition sync_suffix (b : string) : string :=
  match Py.last_char b with
  | Some c => if Ascii.eqb c "/" then "sync?" else "/sync?"
  | None => "/sync?"
  end.

(** The stored base address, if there is one, is an address that is not
    empty followed by its suffix. *)
Definition normalized (m : Machine) : Prop :=
  match baseurl (self m) with
  | None => True
  | Some s => exists b, b <> "" /\ s = b +:+ sync_suffix b
  end.

End Vocabulary.

(** ** Vocabulary of the further properties *)

Section Outcomes.
Context `{C : Collaborators}.

(** The machine when a transaction has reset [self.xml] and nothing else. *)
Definition cleared (m : Machine) : Machine :=
  mkMachine (with_xml None (self m)) (world m).

(** The machine after the document [b] was stored in [self.xml]. *)
Definition stored_xml (b : string) (m : Machine) : Machine :=
  mkMachine (with_xml (Some b) (self m)) (world m).

(** The exception of a transaction on a session that cannot build its url:
    the query path is looked up first, then the two parts are added. *)
Definition address_error (m : Machine) : Exn :=
  match querypath (self m) with
  | None => AttributeError "querypath"
  | Some _ =>
      TypeError "unsupported operand type(s) for +: 'NoneType' and 'str'"
  end.

(** The request goes over TLS without verification of the certificate. *)
Definition unverified (rq : HttpReq) : bool :=
  match req_conn rq with
  | HTTPSConnection _ _ true => true
  | _ => false
  end.

(** The host a request is sent to. *)
Definition req_host (rq : HttpReq) : string :=
  match req_conn rq with
  | HTTPConnection h _ => h
  | HTTPSConnection h _ _ => h
  end.

(** A call of a method of the session, and sequences of calls.  What a call
    returns or raises is dropped; the session goes on as the call left it. *)
Inductive Call : Type :=
| CallSetnode (node : NodeArg)
| CallSetbaseurl (baseurl : string)
| CallSetquery (query : QueryArg)
| CallDorequest (timeout : Z) (HttpMethod : string) (parsexsams : bool)
| CallDoheadrequest (timeout : Z)
| CallGetlastmodified
| CallGetspecies.

Definition call (c : Call) (m : Machine) : Machine :=
  match c with
  | CallSetnode node => snd (setnode node m)
  | CallSetbaseurl b => snd (setbaseurl b m)
  | CallSetquery qa => snd (setquery qa m)
  | CallDorequest t meth px => snd (dorequest t meth px m)
  | CallDoheadrequest t => snd (doheadrequest t m)
  | CallGetlastmodified => snd (getlastmodified m)
  | CallGetspecies => snd (getspecies m)
  end.

Definition calls (l : list Call) (m : Machine) : Machine :=
  foldl (fun m c => call c m) m l.

(** A call that does not hand the empty address to [setbaseurl]. *)
Definition gives_address (c : Call) : Prop :=
  match c with
  | CallSetbaseurl b => b <> ""
  | _ => True
  end.

(** What [getlastmodified] does once the headers are up to date: the part
    of the method from [if 'last-modified' in self.headers] on. *)
Definition read_lastmodified : M (option Timestamp) :=
  h <- getattr "headers" headers ;;
  match h !! "last-modified" with
  | Some v =>
      try_except
        (ts <- parse_value v ;;
         modify (with_lastmodified (Some ts)))
        (fun e =>
           print ("Could not parse date " +:+ headerval_str v) ;;;
           print (exn_str e))
  | None =>
      st <- get status ;;
      if st =? 204 then raise (NoContentError "requets.getlastmodified")
      else modify (with_lastmodified None)
  end ;;;
  getattr "lastmodified" lastmodified.

End Outcomes.

(** ** The module-level [getspecies] *)

Module request.
Section SpeciesOfNode.
Context `{C : Collaborators}.

(** The species records of a result, and [data.data[stype]]: the table of
    the species of one kind, as results.py (not among the sources) gives
    it for a result; the lookup may fail. *)
Variable Species : Type.
Variable table : r.Result -> string -> Exn + gmap string Species.

(** What the function returns: one dictionary of species ('flat'), or one
    dictionary per kind ('struct'). *)
Inductive Listing : Type :=
| Flat (d : gmap string Species)
| Struct (d : gmap string (gmap string Species)).

(** [data.data[stype]], where [data] is what [Request.getspecies]
    returned: [None] has no attribute [data]. *)
Definition data_of (data : option r.Result) (stype : string)
  : M (gmap string Species) :=
  match data with
  | None => raise (AttributeError "data")
  | Some res => of_sum (table res stype)
  end.

(** [for stype in stypes:
       try: ret_value.update(data.data[stype])
       except Exception: pass] *)
Fixpoint update_all (data : option r.Result) (stypes : list string)
         (ret_value : gmap string Species) : M (gmap string Species) :=
  match stypes with
  | [] => ret ret_value
  | stype :: rest =>
      ret_value <- try_except
                     (t <- data_of data stype ;; ret (t ∪ ret_value))
                     (fun _ => ret ret_value) ;;
      update_all data rest ret_value
  end.

(** [{stype: data.data[stype] for stype in stypes}] *)
Fixpoint collect (data : option r.Result) (stypes : list string)
         (acc : gmap string (gmap string Species))
  : M (gmap string (gmap string Species)) :=
  match stypes with
  | [] => ret acc
  | stype :: rest =>
      t <- data_of data stype ;;
      collect data rest (<[stype := t]> acc)
  end.

Definition getspecies_run (node : NodeArg) (output : string)
  : World -> Res Listing * Machine :=
  run
    (init NodeNone None true ;;;
     setnode node ;;;
     data <- getspecies ;;
     if String.eqb output "flat" then
       ret_value <- update_all data ["Atoms"; "Molecules"] ∅ ;;
       ret (Flat ret_value)
     else
       ret_value <- collect data ["Atoms"; "Molecules"] ∅ ;;
       ret (Struct ret_value)).

Definition getspecies (node : NodeArg) (output : string) (w : World)
  : Res Listing * World :=
  result_of (getspecies_run node output w).

(** The table of one kind when it can be read, the empty table otherwise. *)
Definition table_or_empty (data : option r.Result) (stype : string)
  : gmap string Species :=
  match data with
  | Some res =>
      match table res stype with
      | inr t => t
      | inl _ => ∅
      end
  | None => ∅
  end.

End SpeciesOfNode.
End request.

(** ** Concrete collaborators, for running the code on examples *)

Module Demo.

(** The text before the first [c], and the text after it when [c] occurs. *)
Fixpoint cut (c : ascii) (s : string) : string * option string :=
  match s with
  | EmptyString => (EmptyString, None)
  | String a s' =>
      if Ascii.eqb a c then (EmptyString, Some s')
      else let '(h, t) := cut c s' in (String a h, t)
  end.

(** A [urlsplit] for addresses of the shape [scheme://netloc/path?query]. *)
Definition urlsplit (url : string) : Exn + SplitResult :=
  let '(sch, rest) := cut ":" url in
  match rest with
  | Some (String "/" (String "/" rest')) =>
      let '(host, p) := cut "/" rest' in
      let '(pth, qry) := cut "?" (match p with Some p' => "/" +:+ p' | None => "" end) in
      inr (mkSplit sch host pth (match qry with Some x => x | None => "" end))
  | _ =>
      let '(pth, qry) := cut "?" url in
      inr (mkSplit "" "" pth (match qry with Some x => x | None => "" end))
  end.

Definition hex_digit (n : nat) : ascii :=
  ascii_of_nat (if Nat.ltb n 10 then 48 + n else 55 + n).

Definition unreserved (a : ascii) : bool :=
  let n := nat_of_ascii a in
  (Nat.leb 48 n && Nat.leb n 57) || (Nat.leb 65 n && Nat.leb n 90)
  || (Nat.leb 97 n && Nat.leb n 122)
  || Ascii.eqb a "_" || Ascii.eqb a "." || Ascii.eqb a "-" || Ascii.eqb a "~"
  || Ascii.eqb a "/".

(** [urllib.parse.quote] with its default [safe='/']. *)
Fixpoint quote (s : string) : string :=
  match s with
  | EmptyString => EmptyString
  | String a s' =>
      if unreserved a then String a (quote s')
      else
        let n := nat_of_ascii a in
        String "%" (String (hex_digit (Nat.div n 16))
                      (String (hex_digit (Nat.modulo n 16)) (quote s')))
  end.

(** A date parser that only knows one date. *)
Definition parse (s : string) : Exn + Timestamp :=
  if String.eqb s "Thu, 01 Jan 1970 00:00:00 GMT" then inr 0
  else inl (ExternalError "ParserError" ("Unknown string format: " +:+ s)).

Definition populate_model (doc : string) : Exn + r.Model :=
  inr [("document", doc)].

Definition findnode (name : string) : Exn + option nodes.Node :=
  if String.eqb name "cdms"
  then inr (Some (nodes.mkNode "cdms" (Some "http://cdms.example.org/tap/")))
  else inl NodeDoesNotExistError.

(** The collaborators around a given network. *)
Definition collaborators (srv : list HttpReq -> HttpReq -> NetOutcome)
  : Collaborators :=
  Build_Collaborators 20 "doQuery" "VSS2" "XSAMS" quote urlsplit srv
                      populate_model parse findnode.

(** A node that refuses POST with 400 and serves GET. *)
Definition post_intolerant (_ : list HttpReq) (rq : HttpReq) : NetOutcome :=
  if String.eqb (req_method rq) "POST"
  then Responded (mkResponse 400 "Bad Request" [] (inr ""))
  else Responded (mkResponse 200 "OK" [] (inr "<XSAMSData/>")).

(** A node that answers every request with 400. *)
Definition always_400 (_ : list HttpReq) (_ : HttpReq) : NetOutcome :=
  Responded (mkResponse 400 "Bad Request" [] (inr "")).

(** A node that never answers in time. *)
Definition silent (_ : list HttpReq) (_ : HttpReq) : NetOutcome :=
  AwaitFailed socket_timeout.

(** A node that refuses POST with 400 and then does not answer the GET. *)
Definition refuse_then_silent (_ : list HttpReq) (rq : HttpReq)
  : NetOutcome :=
  if String.eqb (req_method rq) "POST"
  then Responded (mkResponse 400 "Bad Request" [] (inr ""))
  else AwaitFailed socket_timeout.

(** A node whose HEAD response carries a date nobody can read. *)
Definition bad_date (_ : list HttpReq) (_ : HttpReq) : NetOutcome :=
  Responded (mkResponse 200 "OK"
               [("vamdc-count-species", "3"); ("last-modified", "yesterday")]
               (inr "")).

(** A node without content. *)
Definition no_content (_ : list HttpReq) (_ : HttpReq) : NetOutcome :=
  Responded (mkResponse 204 "No Content" [] (inr "")).

Definition world0 : World := mkWorld [] [].

(** A session with a base address and a query, before any transaction. *)
Definition session `{Collaborators} : Machine :=
  snd ((setbaseurl "http://node.example.org/tap" ;;;
        setquery (QStr "SELECT SPECIES"))
         (mkMachine (Request_new true) world0)).

Definition C400 : Collaborators := collaborators always_400.
Definition Cpost : Collaborators := collaborators post_intolerant.
Definition Csilent : Collaborators := collaborators silent.
Definition Cdate : Collaborators := collaborators bad_date.
Definition Cempty : Collaborators := collaborators no_content.

(** The url of [Demo.session], split. *)
Definition session_url : SplitResult :=
  mkSplit "http" "node.example.org" "/tap/sync"
          "REQUEST=doQuery&LANG=VSS2&FORMAT=XSAMS&QUERY=SELECT%20SPECIES".

Definition refusal : Response := mkResponse 400 "Bad Request" [] (inr "").

(** The local session of a helper once the node "cdms" is set. *)
Definition cdms_session (C : Collaborators) : Machine :=
  snd (@setnode C (NodeStr "cdms") (mkMachine (Request_new true) world0)).

(** A session after a successful GET. *)
Definition served_session : Machine :=
  snd (@dorequest Cpost 5 "GET" true (@session Cpost)).

(** The answer of the node that serves GET. *)
Definition served : Response := mkResponse 200 "OK" [] (inr "<XSAMSData/>").

(** A node that cannot be reached. *)
Definition unreachable (_ : list HttpReq) (_ : HttpReq) : NetOutcome :=
  SendFailed (ExternalError "ConnectionRefusedError" "Connection refused").

(** A node whose HEAD response carries a date the parser knows. *)
Definition dated (_ : list HttpReq) (_ : HttpReq) : NetOutcome :=
  Responded (mkResponse 200 "OK"
               [("last-modified", "Thu, 01 Jan 1970 00:00:00 GMT")]
               (inr "")).

Definition Cdown : Collaborators := collaborators unreachable.
Definition Cdated : Collaborators := collaborators dated.

(** The tables of a result, for the examples: atoms only. *)
Definition atoms_only (_ : r.Result) (stype : string)
  : Exn + gmap string string :=
  if String.eqb stype "Atoms" then inr {[ "1" := "H" ]}
  else inl (ExternalError "KeyError" stype).

End Demo.

(** ** Symbolic execution of the monad *)

Ltac mrun :=
  repeat (progress
            (unfold bind, ret, raise, get, getattr, modify, print, of_sum,
               try_except, split_url, connect, putrequest, await,
               getresponse, with_status, with_reason, with_baseurl,
               with_node, with_query, with_querypath, with_xml, with_headers,
               with_lastmodified;
             cbn -[dorequest_rec store_headers default_headers setnode setquery
                  dorequest doheadrequest])).

Ltac mcase :=
  match goal with
  | |- context [match ?x with _ => _ end] =>
      lazymatch x with
      | context [match _ with _ => _ end] => fail
      | _ => destruct x eqn:?
      end
  end.

Ltac session_is_ready :=
  exists "http://node.example.org/tap/sync?",
         "REQUEST=doQuery&LANG=VSS2&FORMAT=XSAMS&QUERY=SELECT%20SPECIES";
  by vm_compute.


(** Opening a ready session up for symbolic execution. *)
Ltac open_ready Hr :=
  let b := fresh "b" in
  let p := fresh "p" in
  let Hb := fresh "Hb" in
  let Hp := fresh "Hp" in
  let Hu := fresh "Hu" in
  destruct Hr as (b & p & Hb & Hp & Hu);
  match goal with
  | m : Machine |- _ =>
      destruct m as [? ?];
      unfold request_of, answered, timed_out, put_on_wire, cleared,
        stored_xml in *;
      cbn in Hb, Hp |- *
  end;
  unfold dorequest; cbn [dorequest_rec]; mrun;
  rewrite ?Hp, ?Hb; mrun; rewrite ?Hu; mrun.

(** * Properties of the request engine *)

Section Properties.
Context `{C : Collaborators}.

Lemma req_timeout_request_of m u t meth :
  req_timeout (request_of m u t meth) = t.
Proof.
  unfold req_timeout, request_of, conn_for; cbn.
  destruct (String.eqb (scheme u) "https"); [destruct (verifyhttps (self m))|];
    reflexivity.
Qed.

Lemma ready_answered m u rq res : ready m u -> ready (answered m rq res) u.
Proof. intros (b & p & Hb & Hp & Hu). exists b, p. by cbn. Qed.

Lemma request_of_answered m u rq res t meth :
  request_of (answered m rq res) u t meth = request_of m u t meth.
Proof. reflexivity. Qed.

(** *** One frame of [dorequest] *)

Lemma dorequest_rec_400_post d t px m u res :
  ready m u ->
  server (sent (world m)) (request_of m u t "POST") = Responded res ->
  resp_status res = 400 ->
  dorequest_rec (S d) t "POST" px m
  = dorequest_rec d settings_TIMEOUT "GET" px
      (answered m (request_of m u t "POST") res).
Proof.
  intros (b & p & Hb & Hp & Hu) Hs H400.
  destruct m as [s w]; unfold request_of, answered, put_on_wire in *;
    cbn in *.
  cbn [dorequest_rec]; mrun. rewrite Hp, Hb; mrun. rewrite Hu; mrun.
  rewrite Hs; mrun. rewrite H400; mrun. by destruct px.
Qed.

Lemma dorequest_rec_400_other d t meth px m u res :
  ready m u ->
  meth <> "POST" ->
  server (sent (world m)) (request_of m u t meth) = Responded res ->
  resp_status res = 400 ->
  dorequest_rec (S d) t meth px m
  = (Ret None, answered m (request_of m u t meth) res).
Proof.
  intros (b & p & Hb & Hp & Hu) Hmeth Hs H400.
  apply String.eqb_neq in Hmeth.
  destruct m as [s w]; unfold request_of, answered, put_on_wire in *;
    cbn in *.
  cbn [dorequest_rec]; mrun. rewrite Hp, Hb; mrun. rewrite Hu; mrun.
  rewrite Hs; mrun. rewrite H400, Hmeth; mrun. by destruct px.
Qed.

Lemma dorequest_rec_timeout d t meth px m u :
  ready m u ->
  server (sent (world m)) (request_of m u t meth) = AwaitFailed socket_timeout ->
  dorequest_rec (S d) t meth px m
  = (Raise TimeOutError, timed_out m (request_of m u t meth)).
Proof.
  intros (b & p & Hb & Hp & Hu) Hs.
  destruct m as [s w]; unfold request_of, timed_out, put_on_wire in *;
    cbn in *.
  cbn [dorequest_rec]; mrun. rewrite Hp, Hb; mrun. rewrite Hu; mrun.
  by rewrite Hs.
Qed.

(** Every frame either sends nothing, or sends one request that times out
    (and then raises [TimeOutError] with status 408), or sends one request
    that does not time out and stops there, or sends one request that is
    answered and hands over to the GET frame. *)
Lemma frame_cases d t meth px m :
  let out := dorequest_rec (S d) t meth px m in
  sent (world (snd out)) = sent (world m)
  \/ (exists rq,
         server (sent (world m)) rq = AwaitFailed socket_timeout
         /\ out = (Raise TimeOutError, timed_out m rq))
  \/ (exists rq,
         server (sent (world m)) rq <> AwaitFailed socket_timeout
         /\ sent (world (snd out)) = sent (world m) ++ [rq])
  \/ (exists rq res,
         server (sent (world m)) rq = Responded res
         /\ out = dorequest_rec d settings_TIMEOUT "GET" px
                    (answered m rq res)).
Proof.
  destruct m as [s w]; unfold timed_out, answered, put_on_wire; cbn.
  cbn [dorequest_rec]; mrun.
  destruct (querypath s) as [p|] eqn:Hp; mrun; [|by left].
  destruct (baseurl s) as [b|] eqn:Hb; mrun; [|by left].
  destruct (urlsplit (b +:+ p)) as [e|u] eqn:Hu; mrun; [by left|].
  set (rq := mkReq (conn_for (verifyhttps s) u t) meth (target u)).
  destruct (server (sent w) rq) as [e|e|res] eqn:Hs; mrun.
  - right; right; left. exists rq. by rewrite Hs.
  - destruct e; mrun;
      try (right; right; left; exists rq; by rewrite Hs).
    right; left. exists rq. by rewrite Hs.
  - assert (Hne : server (sent w) rq <> AwaitFailed socket_timeout)
      by (by rewrite Hs).
    destruct px; cbn;
      (destruct (resp_status res =? 200) eqn:H200; mrun;
       [ repeat (mcase; mrun); right; right; left; by exists rq
       | destruct ((resp_status res =? 400) && String.eqb meth "POST")
           eqn:H400; mrun;
         [ right; right; right; exists rq, res; by rewrite Hs
         | right; right; left; by exists rq ] ]).
Qed.

(** *** The depth of the recursion *)

Lemma frame_ext d1 d2 t meth px m :
  (forall m', dorequest_rec d1 settings_TIMEOUT "GET" px m'
              = dorequest_rec d2 settings_TIMEOUT "GET" px m') ->
  dorequest_rec (S d1) t meth px m = dorequest_rec (S d2) t meth px m.
Proof.
  intros H. destruct m as [s w]. cbn [dorequest_rec]; mrun.
  repeat (mcase; mrun); try reflexivity; apply H.
Qed.

(** A frame whose method is not POST never calls itself. *)
Lemma frame_no_fallback d1 d2 t meth px m :
  meth <> "POST" ->
  dorequest_rec (S d1) t meth px m = dorequest_rec (S d2) t meth px m.
Proof.
  intros Hmeth. apply String.eqb_neq in Hmeth.
  destruct m as [s w]. cbn [dorequest_rec]; mrun.
  repeat (mcase; mrun); try reflexivity;
    match goal with
    | H : _ && _ = true |- _ => apply andb_prop in H; destruct H; congruence
    end.
Qed.

(** [dorequest] never exhausts the call stack: from two frames on, the
    result does not depend on the depth. *)
Lemma dorequest_rec_depth d t meth px m :
  (2 <= d)%nat ->
  dorequest_rec d t meth px m = dorequest t meth px m.
Proof.
  destruct d as [|[|d]]; try lia. intros _. unfold dorequest.
  apply frame_ext. intros m'. by apply frame_no_fallback.
Qed.

Lemma dorequest_get_depth d t px m :
  (1 <= d)%nat ->
  dorequest_rec d t "GET" px m = dorequest t "GET" px m.
Proof.
  destruct d as [|d]; try lia. intros _. unfold dorequest.
  by apply frame_no_fallback.
Qed.

(** *** The requests sent by a call *)

Lemma sent_prefix d t meth px m :
  exists ext,
    sent (world (snd (dorequest_rec d t meth px m))) = sent (world m) ++ ext.
Proof.
  revert t meth m. induction d as [|d IH]; intros t meth m.
  - exists []. cbn. by rewrite app_nil_r.
  - destruct (frame_cases d t meth px m)
      as [H|[(rq & Hs & Ho)|[(rq & Hs & Ho)|(rq & res & Hs & Ho)]]].
    + exists []. by rewrite app_nil_r.
    + rewrite Ho. by exists [rq].
    + by exists [rq].
    + rewrite Ho.
      destruct (IH settings_TIMEOUT "GET" (answered m rq res)) as [ext He].
      exists (rq :: ext). rewrite He. cbn. by rewrite <- app_assoc.
Qed.

(** A frame whose method is not POST sends exactly one request. *)
Lemma single_transaction d t meth px m u :
  ready m u ->
  meth <> "POST" ->
  sent (world (snd (dorequest_rec (S d) t meth px m)))
  = sent (world m) ++ [request_of m u t meth].
Proof.
  intros (b & p & Hb & Hp & Hu) Hmeth. apply String.eqb_neq in Hmeth.
  destruct m as [s w]; unfold request_of; cbn in *.
  cbn [dorequest_rec]; mrun. rewrite Hp, Hb; mrun. rewrite Hu; mrun.
  repeat (mcase; mrun); try reflexivity;
    match goal with
    | H : _ && _ = true |- _ => apply andb_prop in H; destruct H; congruence
    end.
Qed.

(** The log of a POST that is refused with 400: the POST, then one GET for
    the same target, sent with the default timeout. *)
Lemma fallback_log t px m u res :
  ready m u ->
  server (sent (world m)) (request_of m u t "POST") = Responded res ->
  resp_status res = 400 ->
  sent (world (snd (dorequest t "POST" px m)))
  = sent (world m)
    ++ [request_of m u t "POST"; request_of m u settings_TIMEOUT "GET"].
Proof.
  intros Hr Hs H400. unfold dorequest.
  rewrite (dorequest_rec_400_post _ _ _ _ _ _ Hr Hs H400).
  rewrite (single_transaction 0 settings_TIMEOUT "GET" px _ u);
    [| by apply ready_answered | discriminate].
  cbn. by rewrite <- app_assoc.
Qed.

(** *** Timeouts *)

Lemma split_after {A} (l ext pre post : list A) (x y : A) :
  l ++ x :: ext = pre ++ y :: post ->
  (length l <= length pre)%nat ->
  (pre = l /\ y = x) \/ (length (l ++ [x]) <= length pre)%nat.
Proof.
  intros He Hlen.
  destruct (decide (length pre = length l)) as [Heq|Hne].
  - left. symmetry in Heq. apply app_inj_1 in He as [-> Hcons]; [|done].
    by inversion Hcons.
  - right. rewrite length_app. cbn. lia.
Qed.

Lemma no_timeout_without_request m m' :
  sent (world m') = sent (world m) -> ~ timeout_in m m'.
Proof.
  intros He (pre & rq & post & Hs & Hlen & _).
  rewrite He in Hs. rewrite Hs, length_app in Hlen. cbn in Hlen. lia.
Qed.

Lemma no_timeout_single m m' rq :
  sent (world m') = sent (world m) ++ [rq] ->
  server (sent (world m)) rq <> AwaitFailed socket_timeout ->
  ~ timeout_in m m'.
Proof.
  intros He Hne (pre & rq' & post & Hs & Hlen & Ht).
  rewrite He in Hs.
  destruct (split_after _ _ _ _ _ _ Hs Hlen) as [[-> ->]|Hl]; [done|].
  apply (f_equal length) in Hs.
  rewrite !length_app in Hs. rewrite length_app in Hl. cbn in Hs, Hl. lia.
Qed.

Lemma timeout_in_rest m m1 m' rq ext :
  sent (world m1) = sent (world m) ++ [rq] ->
  sent (world m') = sent (world m1) ++ ext ->
  server (sent (world m)) rq <> AwaitFailed socket_timeout ->
  timeout_in m m' -> timeout_in m1 m'.
Proof.
  intros H1 H' Hne (pre & rq' & post & Hs & Hlen & Ht).
  exists pre, rq', post. repeat split; [done| |done].
  rewrite H', H1, <- app_assoc in Hs. cbn in Hs.
  destruct (split_after _ _ _ _ _ _ Hs Hlen) as [[-> ->]|Hl]; [done|].
  by rewrite H1.
Qed.

Lemma timeout_raises_rec d t meth px m :
  timeout_in m (snd (dorequest_rec d t meth px m)) ->
  fst (dorequest_rec d t meth px m) = Raise TimeOutError
  /\ status (self (snd (dorequest_rec d t meth px m))) = 408
  /\ reason (self (snd (dorequest_rec d t meth px m))) = "Socket timeout".
Proof.
  revert t meth m. induction d as [|d IH]; intros t meth m Ht.
  - by apply no_timeout_without_request in Ht.
  - destruct (frame_cases d t meth px m)
      as [H|[(rq & Hs & Ho)|[(rq & Hs & Ho)|(rq & res & Hs & Ho)]]].
    + by apply no_timeout_without_request in Ht.
    + by rewrite Ho.
    + by apply (no_timeout_single _ _ rq) in Ht.
    + rewrite Ho in *. apply IH.
      destruct (sent_prefix d settings_TIMEOUT "GET" px (answered m rq res))
        as [ext He].
      apply (timeout_in_rest m _ _ rq ext); [done|done| |done].
      by rewrite Hs.
Qed.

(** *** The header mapping *)

Lemma store_headers_spec l m h :
  headers (self m) = Some h ->
  store_headers l m
  = (Ret tt, mkMachine (with_headers (dict_update h l) (self m)) (world m)).
Proof.
  revert m h. induction l as [|[k v] l IH]; intros [s w] h Hh; cbn in Hh.
  - destruct s; cbn in *; by subst.
  - cbn [store_headers]; mrun. rewrite Hh; mrun.
    erewrite IH; [|reflexivity]. reflexivity.
Qed.

Lemma dict_update_lookup h l k :
  dict_update h l !! k
  = match last_value k l with Some v => Some v | None => h !! k end.
Proof.
  revert h. induction l as [|[k' v] l IH]; intros h; [done|].
  unfold dict_update in *; cbn. rewrite IH.
  destruct (last_value k l); [done|].
  destruct (decide (k' = k)) as [->|Hne].
  - by rewrite lookup_insert_eq.
  - by rewrite lookup_insert_ne.
Qed.

Lemma last_value_map {V W} (f : V -> W) k (l : list (string * V)) :
  last_value k (map (fun kv => (fst kv, f (snd kv))) l)
  = f <$> last_value k l.
Proof.
  induction l as [|[k' v] l IH]; [done|]. cbn. rewrite IH.
  destruct (last_value k l); [done|]. by destruct (decide (k' = k)).
Qed.

Lemma default_headers_dom :
  dom (dict_update ∅ default_headers) = statistics_keys.
Proof.
  unfold dict_update, default_headers, statistics_keys; cbn.
  rewrite !dom_insert_L, dom_empty_L. set_solver.
Qed.

Lemma default_headers_zero k v :
  dict_update ∅ default_headers !! k = Some v -> v = HInt 0.
Proof.
  rewrite dict_update_lookup. cbn.
  repeat (case_decide; [congruence|]). by rewrite lookup_empty.
Qed.

Lemma doheadrequest_responded t m u res :
  ready m u ->
  server (sent (world m)) (request_of m u t "HEAD") = Responded res ->
  doheadrequest t m
  = (Ret tt,
     mkMachine
       (with_headers (dict_update ∅ (head_pairs res))
          (with_reason (resp_reason res)
             (with_status (resp_status res) (self m))))
       (mkWorld (sent (world m) ++ [request_of m u t "HEAD"])
                (stdout (world m) ++ head_lines res))).
Proof.
  intros (b & p & Hb & Hp & Hu) Hs.
  destruct m as [s w]; unfold request_of, head_pairs, head_lines in *;
    cbn in *.
  unfold doheadrequest; mrun. rewrite Hp, Hb; mrun. rewrite Hu; mrun.
  rewrite Hs; mrun.
  destruct (resp_status res =? 200); mrun;
    [|destruct (resp_status res =? 204); mrun;
      [|destruct (resp_status res =? 408); mrun]];
    (erewrite store_headers_spec; [|reflexivity]);
    rewrite ?app_nil_r; reflexivity.
Qed.

Lemma doheadrequest_timeout t m u :
  ready m u ->
  server (sent (world m)) (request_of m u t "HEAD")
  = AwaitFailed socket_timeout ->
  doheadrequest t m
  = (Raise TimeOutError,
     put_on_wire (request_of m u t "HEAD")
       (with_reason "Socket timeout"
          (with_status 408 (with_headers ∅ (self m)))) m).
Proof.
  intros (b & p & Hb & Hp & Hu) Hs.
  destruct m as [s w]; unfold request_of, put_on_wire in *; cbn in *.
  unfold doheadrequest; mrun. rewrite Hp, Hb; mrun. rewrite Hu; mrun.
  by rewrite Hs.
Qed.

(** The head transaction sends nothing, or one request that times out, or
    one request that does not. *)
Lemma head_cases t m :
  let out := doheadrequest t m in
  sent (world (snd out)) = sent (world m)
  \/ (exists rq,
         server (sent (world m)) rq = AwaitFailed socket_timeout
         /\ fst out = Raise TimeOutError
         /\ status (self (snd out)) = 408
         /\ reason (self (snd out)) = "Socket timeout")
  \/ (exists rq,
         server (sent (world m)) rq <> AwaitFailed socket_timeout
         /\ sent (world (snd out)) = sent (world m) ++ [rq]).
Proof.
  cbv zeta. destruct (querypath (self m)) as [p|] eqn:Hp;
    [|left; destruct m as [s w]; unfold doheadrequest; mrun;
      cbn in Hp; by rewrite Hp].
  destruct (baseurl (self m)) as [b|] eqn:Hb;
    [|left; destruct m as [s w]; unfold doheadrequest; mrun;
      cbn in Hp, Hb; by rewrite Hp, Hb].
  destruct (urlsplit (b +:+ p)) as [e|u] eqn:Hu;
    [left; destruct m as [s w]; unfold doheadrequest; mrun;
     cbn in Hp, Hb; by rewrite Hp, Hb, Hu|].
  assert (Hr : ready m u) by (by exists b, p).
  destruct (server (sent (world m)) (request_of m u t "HEAD"))
    as [e|e|res] eqn:Hs.
  - right; right. exists (request_of m u t "HEAD"). rewrite Hs. split; [done|].
    destruct m as [s w]; unfold request_of in *; cbn in *.
    unfold doheadrequest; mrun. rewrite Hp, Hb; mrun. rewrite Hu; mrun.
    by rewrite Hs.
  - assert (e = socket_timeout \/ e <> socket_timeout) as [->|Hne]
      by (destruct e; (by left) || (by right)).
    + right; left. exists (request_of m u t "HEAD").
      by rewrite (doheadrequest_timeout _ _ _ Hr Hs).
    + right; right. exists (request_of m u t "HEAD"). rewrite Hs.
      split; [congruence|].
      destruct m as [s w]; unfold request_of in *; cbn in *.
      unfold doheadrequest; mrun. rewrite Hp, Hb; mrun. rewrite Hu; mrun.
      rewrite Hs. by destruct e.
  - right; right. exists (request_of m u t "HEAD"). rewrite Hs. split; [done|].
    by rewrite (doheadrequest_responded _ _ _ _ Hr Hs).
Qed.

(** ** The POST to GET fallback *)

(** C1.  A POST answered with 400 makes [dorequest] call itself once with
    GET: the whole call is the GET call on the session as the POST left it,
    with the same [parsexsams]; the log grows by the POST and one GET for
    the same target.  A GET answered with 400 sends nothing more and
    returns [None]. *)
Theorem dorequest_400_fallback t px m u res :
  ready m u ->
  resp_status res = 400 ->
  (server (sent (world m)) (request_of m u t "POST") = Responded res ->
   dorequest t "POST" px m
   = dorequest settings_TIMEOUT "GET" px
       (answered m (request_of m u t "POST") res)
   /\ sent (world (snd (dorequest t "POST" px m)))
      = sent (world m)
        ++ [request_of m u t "POST"; request_of m u settings_TIMEOUT "GET"]
   /\ req_target (request_of m u settings_TIMEOUT "GET")
      = req_target (request_of m u t "POST"))
  /\ (server (sent (world m)) (request_of m u t "GET") = Responded res ->
      dorequest t "GET" px m
      = (Ret None, answered m (request_of m u t "GET") res)
      /\ sent (world (snd (dorequest t "GET" px m)))
         = sent (world m) ++ [request_of m u t "GET"]).
Proof.
  intros Hr H400. split; intros Hs.
  - split; [|split; [by apply (fallback_log _ _ _ _ res)|reflexivity]].
    unfold dorequest at 1.
    rewrite (dorequest_rec_400_post _ _ _ _ _ _ Hr Hs H400).
    by apply dorequest_get_depth.
  - assert (Hd : dorequest t "GET" px m
                 = (Ret None, answered m (request_of m u t "GET") res))
      by (by apply dorequest_rec_400_other).
    split; [done|]. by rewrite Hd.
Qed.

(** C10.  The GET that follows a refused POST is sent with the default
    timeout of the settings module, whatever timeout the caller gave. *)
Theorem fallback_uses_default_timeout t px m u res :
  ready m u ->
  server (sent (world m)) (request_of m u t "POST") = Responded res ->
  resp_status res = 400 ->
  exists rq,
    sent (world (snd (dorequest t "POST" px m)))
    = sent (world m) ++ [request_of m u t "POST"; rq]
    /\ req_method rq = "GET"
    /\ req_timeout rq = settings_TIMEOUT
    /\ (t <> settings_TIMEOUT -> req_timeout rq <> t).
Proof.
  intros Hr Hs H400. exists (request_of m u settings_TIMEOUT "GET").
  split; [by apply (fallback_log _ _ _ _ res)|].
  split; [reflexivity|]. rewrite req_timeout_request_of.
  split; [reflexivity|]. congruence.
Qed.

(** ** Socket timeouts *)

(** C2.  When a request sent by [dorequest] or by [doheadrequest] times out
    while the response is awaited, the call raises [TimeOutError] (so it
    returns no value) and leaves status 408 and reason "Socket timeout". *)
Theorem socket_timeout_raises t meth px m :
  (timeout_in m (snd (dorequest t meth px m)) ->
   fst (dorequest t meth px m) = Raise TimeOutError
   /\ (forall v, fst (dorequest t meth px m) <> Ret v)
   /\ status (self (snd (dorequest t meth px m))) = 408
   /\ reason (self (snd (dorequest t meth px m))) = "Socket timeout")
  /\ (timeout_in m (snd (doheadrequest t m)) ->
      fst (doheadrequest t m) = Raise TimeOutError
      /\ (forall v, fst (doheadrequest t m) <> Ret v)
      /\ status (self (snd (doheadrequest t m))) = 408
      /\ reason (self (snd (doheadrequest t m))) = "Socket timeout").
Proof.
  split; intros Ht.
  - destruct (timeout_raises_rec 2 t meth px m Ht) as (Hf & Hst & Hre).
    unfold dorequest. rewrite Hf. by repeat split.
  - destruct (head_cases t m) as [H|[(rq & Hs & Hf & Hst & Hre)|(rq & Hs & Ho)]].
    + by apply no_timeout_without_request in Ht.
    + rewrite Hf. by repeat split.
    + by apply (no_timeout_single _ _ rq) in Ht.
Qed.

(** ** The head transaction *)

(** C3.  After a head transaction that got a response: with status 200 the
    mapping gives every key the value the response headers give it; with
    any other status (204 and 408 among them) its keys are exactly the
    eight statistics keys and every value is the integer 0. *)
Theorem doheadrequest_headers t m u res :
  ready m u ->
  server (sent (world m)) (request_of m u t "HEAD") = Responded res ->
  fst (doheadrequest t m) = Ret tt
  /\ exists h,
      headers (self (snd (doheadrequest t m))) = Some h
      /\ (resp_status res = 200 ->
          forall k, h !! k = HStr <$> last_value k (resp_headers res))
      /\ (resp_status res <> 200 ->
          dom h = statistics_keys
          /\ forall k v, h !! k = Some v -> v = HInt 0).
Proof.
  intros Hr Hs. rewrite (doheadrequest_responded _ _ _ _ Hr Hs).
  split; [reflexivity|]. eexists. split; [reflexivity|].
  unfold head_pairs. split.
  - intros ->. cbn [Z.eqb Pos.eqb]. intros k.
    rewrite dict_update_lookup, last_value_map, lookup_empty.
    by destruct (last_value k (resp_headers res)).
  - intros Hne. apply Z.eqb_neq in Hne. rewrite Hne.
    split; [apply default_headers_dom|apply default_headers_zero].
Qed.

(** ** Assigning the query *)

(** C9 (amended).  For an argument that is neither a [query.Query] nor a
    [str], [setquery] returns silently and builds no query path: the query,
    the query path and every other attribute are kept, except that status
    and reason are reset to 0 and "INIT" as for any other argument. *)
Theorem setquery_unrecognized arg m :
  (forall qu, arg <> QObj qu) ->
  (forall s, arg <> QStr s) ->
  setquery arg m
  = (Ret tt, mkMachine (with_reason "INIT" (with_status 0 (self m))) (world m))
  /\ query_ (self (snd (setquery arg m))) = query_ (self m)
  /\ querypath (self (snd (setquery arg m))) = querypath (self m)
  /\ baseurl (self (snd (setquery arg m))) = baseurl (self m)
  /\ node (self (snd (setquery arg m))) = node (self m)
  /\ verifyhttps (self (snd (setquery arg m))) = verifyhttps (self m)
  /\ xml (self (snd (setquery arg m))) = xml (self m)
  /\ headers (self (snd (setquery arg m))) = headers (self m)
  /\ lastmodified (self (snd (setquery arg m))) = lastmodified (self m)
  /\ world (snd (setquery arg m)) = world m
  /\ status (self (snd (setquery arg m))) = 0
  /\ reason (self (snd (setquery arg m))) = "INIT".
Proof.
  intros Hq Hs. destruct arg as [qu|s|ty]; [by destruct (Hq qu)|by destruct (Hs s)|].
  by repeat split.
Qed.

(** What [setquery] does with a string. *)
Lemma setquery_str s m :
  setquery (QStr s) m
  = (Ret tt,
     mkMachine
       (with_querypath
          ("REQUEST=" +:+ Query_Request +:+ "&LANG=" +:+ Query_Lang
           +:+ "&FORMAT=" +:+ Query_Format +:+ "&QUERY=" +:+ quote s)
          (with_query (q.mkQuery Query_Request Query_Lang Query_Format s)
             (with_reason "INIT" (with_status 0 (self m)))))
       (world m)).
Proof. reflexivity. Qed.

(** [dorequest] leaves the address, the query and its path alone. *)
Lemma dorequest_rec_keeps d t meth px m :
  query_ (self (snd (dorequest_rec d t meth px m))) = query_ (self m)
  /\ querypath (self (snd (dorequest_rec d t meth px m))) = querypath (self m)
  /\ baseurl (self (snd (dorequest_rec d t meth px m))) = baseurl (self m).
Proof.
  revert t meth m. induction d as [|d IH]; intros t meth m; [done|].
  destruct m as [s w]. cbn [dorequest_rec]; mrun.
  repeat (mcase; mrun); try done;
    match goal with
    | |- context [dorequest_rec d ?t ?me px ?m'] =>
        destruct (IH t me m') as (-> & -> & ->); by cbn
    end.
Qed.

(** ** The query helpers *)

(** C8 (amended).  [Request.getspecies] assigns the fixed text
    [SELECT SPECIES WHERE ((InchiKey!='UGFAIRIUMAVXCW'))], written without
    blanks around the operator, and runs [dorequest] with its defaults: the
    timeout of the settings, POST, and parsing of the document. *)
Theorem getspecies_query m :
  getspecies m
  = dorequest settings_TIMEOUT "POST" true (snd (setquery (QStr querystring_species) m))
  /\ q.QueryText <$> query_ (self (snd (getspecies m)))
     = Some "SELECT SPECIES WHERE ((InchiKey!='UGFAIRIUMAVXCW'))"
  /\ querypath (self (snd (getspecies m)))
     = Some ("REQUEST=" +:+ Query_Request +:+ "&LANG=" +:+ Query_Lang
             +:+ "&FORMAT=" +:+ Query_Format +:+ "&QUERY="
             +:+ quote "SELECT SPECIES WHERE ((InchiKey!='UGFAIRIUMAVXCW'))").
Proof.
  assert (He : getspecies m
               = dorequest settings_TIMEOUT "POST" true
                   (snd (setquery (QStr querystring_species) m))).
  { unfold getspecies, bind at 1. rewrite setquery_str. cbn [snd].
    unfold bind, ret.
    by destruct (dorequest _ _ _ _) as [[v|e] m']. }
  split; [done|]. rewrite He. unfold dorequest.
  destruct (dorequest_rec_keeps 2 settings_TIMEOUT "POST" true
              (snd (setquery (QStr querystring_species) m)))
    as (-> & -> & _).
  by rewrite setquery_str.
Qed.



(** ** Fetching all data of a species *)

Lemma do_species_data_request_run_eq node sid vid w m1 :
  setnode node (mkMachine (Request_new true) w) = (Ret tt, m1) ->
  do_species_data_request_run node sid vid w
  = (result <- first_try sid ;; final_try vid result) m1.
Proof.
  intros Hn. unfold do_species_data_request_run, run, init; mrun.
  rewrite Hn. reflexivity.
Qed.

(** C4 (amended).  Once the node is set, a failure of the first attempt is
    caught: its line is printed and the function goes on to the second
    [try] with no result.  A failure of the final attempt is caught in the
    same way: its line is printed and the function returns [None].  So the
    function raises nothing after the node was set. *)
Theorem species_failures_are_swallowed node sid vid w m1 :
  setnode node (mkMachine (Request_new true) w) = (Ret tt, m1) ->
  (forall e m2,
      species_attempt sid m1 = (Raise e, m2) ->
      do_species_data_request_run node sid vid w
      = final_try vid None (printed (first_failure_line e) m2))
  /\ (forall r1 m2 e m3,
         first_try sid m1 = (Ret r1, m2) ->
         vamdcspecies_attempt vid r1 m2 = (Raise e, m3) ->
         do_species_data_request node sid vid w
         = (Ret None, world (printed ("Query failed: " +:+ exn_str e) m3)))
  /\ exists v, fst (do_species_data_request node sid vid w) = Ret v.
Proof.
  intros Hn. split; [|split].
  - intros e m2 He. rewrite (do_species_data_request_run_eq _ _ _ _ _ Hn).
    unfold bind, first_try, try_except at 1. by rewrite He.
  - intros r1 m2 e m3 H1 H2. unfold do_species_data_request.
    rewrite (do_species_data_request_run_eq _ _ _ _ _ Hn).
    unfold bind. rewrite H1. unfold final_try, try_except. by rewrite H2.
  - unfold do_species_data_request.
    rewrite (do_species_data_request_run_eq _ _ _ _ _ Hn).
    unfold bind, first_try, final_try, try_except.
    destruct (species_attempt sid m1) as [[r1|e1] m2]; mrun;
      destruct (vamdcspecies_attempt vid _ _) as [[r2|e2] m3]; mrun;
      by eexists.
Qed.

(** ** The date of last modification *)

(** When the date cannot be parsed and no date was stored before, the two
    lines are printed and then reading [self.lastmodified] fails. *)
Lemma getlastmodified_unparsable_fresh m h v e :
  status (self m) = 200 ->
  headers (self m) = Some h ->
  h !! "last-modified" = Some v ->
  parse_value v m = (Raise e, m) ->
  lastmodified (self m) = None ->
  getlastmodified m
  = (Raise (AttributeError "lastmodified"),
     printed (exn_str e) (printed ("Could not parse date " +:+ headerval_str v) m)).
Proof.
  intros Hst Hh Hv Hp Hl. destruct m as [s w]; cbn in *.
  unfold getlastmodified; mrun. rewrite Hst; mrun. rewrite Hh; mrun.
  rewrite Hv. unfold try_except, bind. rewrite Hp. mrun. by rewrite Hl.
Qed.

(** With a date stored by an earlier call, that older date is returned. *)
Lemma getlastmodified_unparsable_stale m h v e old :
  status (self m) = 200 ->
  headers (self m) = Some h ->
  h !! "last-modified" = Some v ->
  parse_value v m = (Raise e, m) ->
  lastmodified (self m) = Some old ->
  getlastmodified m
  = (Ret old,
     printed (exn_str e) (printed ("Could not parse date " +:+ headerval_str v) m)).
Proof.
  intros Hst Hh Hv Hp Hl. destruct m as [s w]; cbn in *.
  unfold getlastmodified; mrun. rewrite Hst; mrun. rewrite Hh; mrun.
  rewrite Hv. unfold try_except, bind. rewrite Hp. mrun. by rewrite Hl.
Qed.

(** ** The base address *)

Lemma last_char_nonempty b : b <> "" -> exists c, Py.last_char b = Some c.
Proof.
  induction b as [|a b IH]; [done|]. intros _. destruct b as [|a' b].
  - by exists a.
  - destruct IH as [c Hc]; [done|]. by exists c.
Qed.

(** On an address that is not empty, [setbaseurl] stores the address with
    its suffix. *)
Lemma setbaseurl_normalizes b m :
  b <> "" ->
  setbaseurl b m
  = (Ret tt, mkMachine (with_baseurl (Some (b +:+ sync_suffix b)) (self m))
                       (world m)).
Proof.
  intros Hb. destruct (last_char_nonempty b Hb) as [c Hc].
  unfold setbaseurl, add_sync, sync_suffix; mrun. rewrite Hc.
  by destruct (Ascii.eqb c "/").
Qed.

(** So does [setnode] for a node whose url is not empty. *)
Lemma setnode_normalizes n u m :
  nodes.url n = Some u ->
  u <> "" ->
  setnode (NodeObj n) m
  = (Ret tt,
     mkMachine
       (with_baseurl (Some (u +:+ sync_suffix u))
          (with_node (Some n) (with_reason "INIT" (with_status 0 (self m)))))
       (world m)).
Proof.
  intros Hu Hne. destruct (last_char_nonempty u Hne) as [c Hc].
  assert (Hlen : Nat.eqb (String.length u) 0 = false) by (by destruct u).
  unfold setnode, add_sync, sync_suffix; mrun. rewrite Hu, Hlen; mrun.
  rewrite Hc. by destruct (Ascii.eqb c "/").
Qed.

(** A node without url, or with an empty one, leaves the address alone. *)
Lemma setnode_without_url n m :
  nodes.url n = None \/ nodes.url n = Some "" ->
  setnode (NodeObj n) m
  = (Ret tt,
     mkMachine (with_node (Some n) (with_reason "INIT" (with_status 0 (self m))))
               (world m)).
Proof.
  intros [Hu|Hu]; unfold setnode; mrun; by rewrite Hu.
Qed.

(** The message of the handler in [setnode] is never printed. *)
Lemma setnode_never_prints node m :
  stdout (world (snd (setnode node m))) = stdout (world m).
Proof.
  destruct m as [s w]. unfold setnode, add_sync; mrun.
  destruct node as [nm|n|]; mrun; [destruct (findnode nm) as [e|[n|]]| |];
    mrun; try done;
    (destruct (nodes.url n) as [u|]; mrun; [|done];
     destruct (Nat.eqb (String.length u) 0) eqn:Hlen; mrun; [done|];
     destruct (last_char_nonempty u) as [c Hc]; [by intros ->|];
     rewrite Hc; by destruct (Ascii.eqb c "/")).
Qed.

(** Whatever node is assigned, a normalized address stays normalized. *)
Lemma setnode_keeps_normalized node m :
  normalized m -> normalized (snd (setnode node m)).
Proof.
  destruct m as [s w]. unfold normalized, setnode, add_sync; mrun. intros Hn.
  destruct node as [nm|n|]; mrun; [destruct (findnode nm) as [e|[n|]]| |];
    mrun; try done;
    (destruct (nodes.url n) as [u|]; mrun; [|done];
     destruct (Nat.eqb (String.length u) 0) eqn:Hlen; mrun; [done|];
     assert (Hu : u <> "") by (by intros ->);
     destruct (last_char_nonempty u Hu) as [c Hc];
     rewrite Hc;
     destruct (Ascii.eqb c "/") eqn:Hslash; mrun;
     exists u; (split; [done|]); unfold sync_suffix; by rewrite Hc, Hslash).
Qed.

Lemma setquery_keeps_normalized arg m :
  normalized m -> normalized (snd (setquery arg m)).
Proof. destruct m as [s w]. by destruct arg. Qed.

Lemma setbaseurl_normalized b m :
  b <> "" -> normalized (snd (setbaseurl b m)).
Proof.
  intros Hb. rewrite (setbaseurl_normalizes _ _ Hb). by exists b.
Qed.

Lemma dorequest_keeps_normalized t meth px m :
  normalized m -> normalized (snd (dorequest t meth px m)).
Proof.
  unfold normalized, dorequest.
  by destruct (dorequest_rec_keeps 2 t meth px m) as (_ & _ & ->).
Qed.

End Properties.

(** * The engine on concrete nodes *)

Module Examples.

Example int_examples :
  Py.int "123" = Some 123 /\ Py.int " -1_0 " = Some (-10)
  /\ Py.int "007" = Some 7 /\ Py.int "1__0" = None /\ Py.int "12a" = None
  /\ Py.int "" = None /\ Py.int "-" = None.
Proof. by vm_compute. Qed.

Example string_examples :
  Py.find "-" "7-123" = 1 /\ Py.find "-" "123" = -1
  /\ Py.slice_from (Py.find "-" "a-b-3" + 1) "a-b-3" = "b-3"
  /\ Py.split "-" "a-b-c" = ["a"; "b"; "c"] /\ Py.split "-" "" = [""]
  /\ Py.fmt_d (-15) = "-15" /\ Py.fmt_d 0 = "0".
Proof. by vm_compute. Qed.

(** A node that answers 400 to everything: the POST is followed by one GET,
    and a GET alone returns [None]. *)
Lemma dorequest_400_fallback_witness :
  @ready Demo.C400 (@Demo.session Demo.C400) Demo.session_url
  /\ resp_status Demo.refusal = 400
  /\ fst (@dorequest Demo.C400 5 "GET" true (@Demo.session Demo.C400)) = Ret None
  /\ map req_method
         (sent (world (snd (@dorequest Demo.C400 5 "POST" true (@Demo.session Demo.C400)))))
     = ["POST"; "GET"].
Proof.
  assert (Hr : @ready Demo.C400 (@Demo.session Demo.C400) Demo.session_url)
    by session_is_ready.
  destruct (@dorequest_400_fallback Demo.C400 5 true (@Demo.session Demo.C400)
              Demo.session_url Demo.refusal Hr eq_refl) as [HP HG].
  destruct (HP eq_refl) as (_ & Hlog & _). destruct (HG eq_refl) as (Hget & _).
  split; [done|]. split; [done|]. split.
  - by rewrite Hget.
  - by rewrite Hlog.
Defined.

(** The caller asks for 5 seconds; the GET goes out with the 20 seconds of
    the settings. *)
Lemma fallback_uses_default_timeout_witness :
  @ready Demo.Cpost (@Demo.session Demo.Cpost) Demo.session_url
  /\ map req_timeout
         (sent (world (snd (@dorequest Demo.Cpost 5 "POST" true (@Demo.session Demo.Cpost)))))
     = [5; 20].
Proof.
  assert (Hr : @ready Demo.Cpost (@Demo.session Demo.Cpost) Demo.session_url)
    by session_is_ready.
  destruct (@fallback_uses_default_timeout Demo.Cpost 5 true (@Demo.session Demo.Cpost)
              Demo.session_url Demo.refusal Hr eq_refl eq_refl)
    as (rq & Hlog & _ & Ht & _).
  split; [done|]. rewrite Hlog. cbn. by rewrite Ht.
Defined.

(** On a node that never answers, the request of [dorequest] times out. *)
Lemma silent_dorequest_times_out :
  @timeout_in Demo.Csilent (@Demo.session Demo.Csilent)
             (snd (@dorequest Demo.Csilent 5 "POST" true (@Demo.session Demo.Csilent))).
Proof.
  exists [], (request_of (@Demo.session Demo.Csilent) Demo.session_url 5 "POST"), [].
  split; [by vm_compute|]. split; [cbn; lia|reflexivity].
Defined.

(** And so does the request of [doheadrequest]. *)
Lemma silent_doheadrequest_times_out :
  @timeout_in Demo.Csilent (@Demo.session Demo.Csilent)
             (snd (@doheadrequest Demo.Csilent 5 (@Demo.session Demo.Csilent))).
Proof.
  exists [], (request_of (@Demo.session Demo.Csilent) Demo.session_url 5 "HEAD"), [].
  split; [by vm_compute|]. split; [cbn; lia|reflexivity].
Defined.

(** A node that never answers: both transactions raise and leave 408. *)
Lemma socket_timeout_raises_witness :
  fst (@dorequest Demo.Csilent 5 "POST" true (@Demo.session Demo.Csilent))
  = Raise TimeOutError
  /\ status (self (snd (@dorequest Demo.Csilent 5 "POST" true (@Demo.session Demo.Csilent))))
     = 408
  /\ fst (@doheadrequest Demo.Csilent 5 (@Demo.session Demo.Csilent)) = Raise TimeOutError
  /\ status (self (snd (@doheadrequest Demo.Csilent 5 (@Demo.session Demo.Csilent)))) = 408.
Proof.
  destruct (@socket_timeout_raises Demo.Csilent 5 "POST" true (@Demo.session Demo.Csilent))
    as [Hd Hh].
  destruct (Hd silent_dorequest_times_out) as (H1 & _ & H2 & _).
  destruct (Hh silent_doheadrequest_times_out) as (H3 & _ & H4 & _).
  by repeat split.
Defined.

(** The POST is refused and the GET that follows is not answered. *)
Example fallback_times_out :
  let C := Demo.collaborators Demo.refuse_then_silent in
  fst (@dorequest C 5 "POST" true (@Demo.session C)) = Raise TimeOutError
  /\ map req_method
         (sent (world (snd (@dorequest C 5 "POST" true (@Demo.session C)))))
     = ["POST"; "GET"]
  /\ status (self (snd (@dorequest C 5 "POST" true (@Demo.session C)))) = 408.
Proof. by vm_compute. Qed.

(** A 204 answer to HEAD: the eight keys. *)
Lemma doheadrequest_headers_witness :
  @ready Demo.Cempty (@Demo.session Demo.Cempty) Demo.session_url
  /\ fst (@doheadrequest Demo.Cempty 5 (@Demo.session Demo.Cempty)) = Ret tt
  /\ exists h,
      headers (self (snd (@doheadrequest Demo.Cempty 5 (@Demo.session Demo.Cempty))))
      = Some h
      /\ dom h = statistics_keys.
Proof.
  assert (Hr : @ready Demo.Cempty (@Demo.session Demo.Cempty) Demo.session_url)
    by session_is_ready.
  destruct (@doheadrequest_headers Demo.Cempty 5 (@Demo.session Demo.Cempty) Demo.session_url
              (mkResponse 204 "No Content" [] (inr "")) Hr eq_refl)
    as (Hf & h & Hh & _ & H204).
  split; [done|]. split; [done|]. exists h. split; [done|].
  destruct H204 as [Hdom _]; [done|]. exact Hdom.
Defined.

(** The final attempt times out on a node that never answers, and the
    caller gets [None], not the exception. *)
Lemma final_failure_is_swallowed :
  ~ @final_failure_propagates Demo.Csilent.
Proof.
  intros H.
  specialize (H (NodeStr "cdms") None (Some "XYZ") Demo.world0
                (Demo.cdms_session Demo.Csilent) None (Demo.cdms_session Demo.Csilent)
                TimeOutError
                (snd (@vamdcspecies_attempt Demo.Csilent (Some "XYZ") None
                        (Demo.cdms_session Demo.Csilent)))).
  assert (Hn : @setnode Demo.Csilent (NodeStr "cdms")
                 (mkMachine (Request_new true) Demo.world0)
               = (Ret tt, Demo.cdms_session Demo.Csilent)) by (by vm_compute).
  assert (H1 : @first_try Demo.Csilent None (Demo.cdms_session Demo.Csilent)
               = (Ret None, Demo.cdms_session Demo.Csilent)) by (by vm_compute).
  assert (H2 : @vamdcspecies_attempt Demo.Csilent (Some "XYZ") None
                 (Demo.cdms_session Demo.Csilent)
               = (Raise TimeOutError,
                  snd (@vamdcspecies_attempt Demo.Csilent (Some "XYZ") None
                         (Demo.cdms_session Demo.Csilent)))) by (by vm_compute).
  specialize (H Hn H1 H2). vm_compute in H. discriminate H.
Qed.

(** Both attempts time out; both lines are printed and [None] comes back. *)
Lemma species_failures_are_swallowed_witness :
  @setnode Demo.Csilent (NodeStr "cdms") (mkMachine (Request_new true) Demo.world0)
  = (Ret tt, Demo.cdms_session Demo.Csilent)
  /\ fst (@do_species_data_request Demo.Csilent (NodeStr "cdms")
            (Some (SidStr "7-123")) (Some "XYZ") Demo.world0) = Ret None
  /\ length (stdout (snd (@do_species_data_request Demo.Csilent (NodeStr "cdms")
                            (Some (SidStr "7-123")) (Some "XYZ") Demo.world0)))
     = 4%nat.
Proof.
  assert (Hn : @setnode Demo.Csilent (NodeStr "cdms")
                 (mkMachine (Request_new true) Demo.world0)
               = (Ret tt, Demo.cdms_session Demo.Csilent)) by (by vm_compute).
  destruct (@species_failures_are_swallowed Demo.Csilent (NodeStr "cdms")
              (Some (SidStr "7-123")) (Some "XYZ") Demo.world0 _ Hn)
    as (_ & Hfinal & _).
  split; [done|].
  rewrite (Hfinal None
             (snd (@first_try Demo.Csilent (Some (SidStr "7-123"))
                     (Demo.cdms_session Demo.Csilent)))
             TimeOutError
             (snd (@vamdcspecies_attempt Demo.Csilent (Some "XYZ") None
                     (snd (@first_try Demo.Csilent (Some (SidStr "7-123"))
                             (Demo.cdms_session Demo.Csilent))))));
    by vm_compute.
Defined.

(** C5 (defect of the code).  A fresh session asks for the date of last
    modification; the node answers the HEAD with 200 and a date that cannot
    be parsed.  The failure is printed and the time stamp stays unset, but
    the call then raises [AttributeError] instead of raising nothing:
    [self.lastmodified] was never assigned. *)
Theorem getlastmodified_unparsable_date :
  fst (@getlastmodified Demo.Cdate (@Demo.session Demo.Cdate))
  = Raise (AttributeError "lastmodified")
  /\ stdout (world (snd (@getlastmodified Demo.Cdate (@Demo.session Demo.Cdate))))
     = ["Could not parse date yesterday"; "Unknown string format: yesterday"]
  /\ lastmodified (self (snd (@getlastmodified Demo.Cdate (@Demo.session Demo.Cdate))))
     = None.
Proof. by vm_compute. Qed.

(** C6 (defect of the code).  [setbaseurl] on the empty address stores it
    and then fails on [self.baseurl[-1]]: the stored base address is the
    empty string, without any suffix. *)
Theorem setbaseurl_empty_address :
  setbaseurl "" (mkMachine (Request_new true) Demo.world0)
  = (Raise (IndexError "string index out of range"),
     mkMachine (with_baseurl (Some "") (Request_new true)) Demo.world0).
Proof. reflexivity. Qed.


(** The text that [getspecies] assigns is not the one with blanks around
    the operator. *)
Lemma getspecies_text_has_no_blanks :
  q.QueryText <$> query_ (self (snd (@getspecies Demo.Cpost (@Demo.session Demo.Cpost))))
  <> Some "SELECT SPECIES WHERE ((InchiKey != 'UGFAIRIUMAVXCW'))".
Proof. vm_compute. intros H. discriminate H. Qed.

(** Its status is 200; [setquery(None)] puts it back to 0, so the session
    is not as it was. *)
Lemma setquery_unrecognized_resets_status :
  status (self Demo.served_session) = 200
  /\ snd (@setquery Demo.Cpost (QOther "NoneType") Demo.served_session) <> Demo.served_session.
Proof.
  split; [by vm_compute|]. intros H.
  apply (f_equal (fun m => status (self m))) in H. vm_compute in H.
  discriminate H.
Qed.

(** [setquery(None)] on that session keeps the query path. *)
Lemma setquery_unrecognized_witness :
  (forall qu, QOther "NoneType" <> QObj qu)
  /\ (forall s, QOther "NoneType" <> QStr s)
  /\ querypath (self (snd (@setquery Demo.Cpost (QOther "NoneType") Demo.served_session)))
     = querypath (self Demo.served_session)
  /\ status (self (snd (@setquery Demo.Cpost (QOther "NoneType") Demo.served_session))) = 0.
Proof.
  assert (H1 : forall qu, QOther "NoneType" <> QObj qu) by done.
  assert (H2 : forall s, QOther "NoneType" <> QStr s) by done.
  destruct (@setquery_unrecognized Demo.Cpost (QOther "NoneType") Demo.served_session
              H1 H2) as (_ & _ & Hp & _ & _ & _ & _ & _ & _ & _ & Hs & _).
  split; [exact H1|]. split; [exact H2|]. split; [exact Hp|exact Hs].
Defined.

End Examples.

(** * Further properties of the request engine *)

Section Coverage.
Context `{C : Collaborators}.

(** ** The outcomes of one transaction *)

Lemma frame_200_content d t meth m u res body :
  ready m u ->
  server (sent (world m)) (request_of m u t meth) = Responded res ->
  resp_status res = 200 ->
  resp_body res = inr body ->
  dorequest_rec (S d) t meth false m
  = (Ret (Some (r.mkResult (Some body) None None)),
     answered m (request_of m u t meth) res).
Proof.
  intros Hr Hs H200 Hbody. open_ready Hr. cbn in Hs. rewrite Hs; mrun.
  rewrite H200; mrun. by rewrite Hbody.
Qed.

Lemma frame_200_xml d t meth m u res body :
  ready m u ->
  server (sent (world m)) (request_of m u t meth) = Responded res ->
  resp_status res = 200 ->
  resp_body res = inr body ->
  dorequest_rec (S d) t meth true m
  = match populate_model body with
    | inr model =>
        (Ret (Some (r.mkResult None (Some body) (Some model))),
         stored_xml body (answered m (request_of m u t meth) res))
    | inl e =>
        (Raise e, stored_xml body (answered m (request_of m u t meth) res))
    end.
Proof.
  intros Hr Hs H200 Hbody. open_ready Hr. cbn in Hs. rewrite Hs; mrun.
  rewrite H200; mrun. rewrite Hbody; mrun.
  by destruct (populate_model body).
Qed.

Lemma frame_200_unread d t meth px m u res e :
  ready m u ->
  server (sent (world m)) (request_of m u t meth) = Responded res ->
  resp_status res = 200 ->
  resp_body res = inl e ->
  dorequest_rec (S d) t meth px m
  = (Raise e, answered m (request_of m u t meth) res).
Proof.
  intros Hr Hs H200 Hbody. open_ready Hr. cbn in Hs. rewrite Hs; mrun.
  rewrite H200; mrun. rewrite Hbody. by destruct px.
Qed.

Lemma frame_other_status d t meth px m u res :
  ready m u ->
  server (sent (world m)) (request_of m u t meth) = Responded res ->
  resp_status res <> 200 ->
  resp_status res <> 400 \/ meth <> "POST" ->
  dorequest_rec (S d) t meth px m
  = (Ret None, answered m (request_of m u t meth) res).
Proof.
  intros Hr Hs H200 Hno. open_ready Hr. cbn in Hs. rewrite Hs; mrun.
  apply Z.eqb_neq in H200. rewrite H200.
  assert (Hf : (resp_status res =? 400) && String.eqb meth "POST" = false).
  { apply andb_false_iff. destruct Hno as [H|H]; [left|right].
    - by apply Z.eqb_neq.
    - by apply String.eqb_neq. }
  rewrite Hf. by destruct px.
Qed.

Lemma frame_send_failed d t meth px m u e :
  ready m u ->
  server (sent (world m)) (request_of m u t meth) = SendFailed e ->
  dorequest_rec (S d) t meth px m
  = (Raise e, put_on_wire (request_of m u t meth) (with_xml None (self m)) m).
Proof.
  intros Hr Hs. open_ready Hr. cbn in Hs. by rewrite Hs.
Qed.

Lemma frame_await_failed d t meth px m u e :
  ready m u ->
  server (sent (world m)) (request_of m u t meth) = AwaitFailed e ->
  e <> socket_timeout ->
  dorequest_rec (S d) t meth px m
  = (Raise e, put_on_wire (request_of m u t meth) (with_xml None (self m)) m).
Proof.
  intros Hr Hs He. open_ready Hr. cbn in Hs. rewrite Hs. by destruct e.
Qed.

(** A session either can build its url or fails before sending. *)
Lemma ready_or_not m :
  (exists u, ready m u)
  \/ (forall u, ~ ready m u)
     /\ (querypath (self m) = None \/ baseurl (self m) = None
         \/ exists b p e, baseurl (self m) = Some b
                          /\ querypath (self m) = Some p
                          /\ urlsplit (b +:+ p) = inl e).
Proof.
  destruct (querypath (self m)) as [p|] eqn:Hp.
  - destruct (baseurl (self m)) as [b|] eqn:Hb.
    + destruct (urlsplit (b +:+ p)) as [e|u] eqn:Hu.
      * right. split; [|right; right; by exists b, p, e].
        intros u (b' & p' & Hb' & Hp' & Hu'). congruence.
      * left. exists u. by exists b, p.
    + right. split; [|by right; left].
      intros u (b' & p' & Hb' & Hp' & Hu'). congruence.
  - right. split; [|by left].
    intros u (b' & p' & Hb' & Hp' & Hu'). congruence.
Qed.

Lemma frame_no_address d t meth px m :
  querypath (self m) = None \/ baseurl (self m) = None ->
  dorequest_rec (S d) t meth px m = (Raise (address_error m), cleared m).
Proof.
  intros H. destruct m as [s w]; unfold address_error, cleared; cbn in *.
  cbn [dorequest_rec]; mrun.
  destruct (querypath s) as [p|]; mrun; [|done].
  destruct H as [H|H]; [done|]. by rewrite H.
Qed.

Lemma frame_no_split d t meth px m b p e :
  baseurl (self m) = Some b ->
  querypath (self m) = Some p ->
  urlsplit (b +:+ p) = inl e ->
  dorequest_rec (S d) t meth px m = (Raise e, cleared m).
Proof.
  intros Hb Hp Hu. destruct m as [s w]; unfold cleared; cbn in *.
  cbn [dorequest_rec]; mrun. rewrite Hp, Hb; mrun. by rewrite Hu.
Qed.

Lemma head_no_address t m :
  querypath (self m) = None \/ baseurl (self m) = None ->
  doheadrequest t m
  = (Raise (address_error m),
     mkMachine (with_headers ∅ (self m)) (world m)).
Proof.
  intros H. destruct m as [s w]; unfold address_error; cbn in *.
  unfold doheadrequest; mrun.
  destruct (querypath s) as [p|]; mrun; [|done].
  destruct H as [H|H]; [done|]. by rewrite H.
Qed.

(** X1.  A response with status 200 whose body can be read gives a result:
    without parsing the body is the [Content] of the result; with parsing
    it is the [Xml] of the result and is kept in [self.xml], and the model
    is the one built from it, or the failure of the parser is raised.  The
    one request is the only one sent and the status line is recorded. *)
Theorem dorequest_success t meth m u res body :
  ready m u ->
  server (sent (world m)) (request_of m u t meth) = Responded res ->
  resp_status res = 200 ->
  resp_body res = inr body ->
  dorequest t meth false m
  = (Ret (Some (r.mkResult (Some body) None None)),
     answered m (request_of m u t meth) res)
  /\ dorequest t meth true m
     = match populate_model body with
       | inr model =>
           (Ret (Some (r.mkResult None (Some body) (Some model))),
            stored_xml body (answered m (request_of m u t meth) res))
       | inl e =>
           (Raise e, stored_xml body (answered m (request_of m u t meth) res))
       end.
Proof.
  intros Hr Hs H200 Hbody. split.
  - by apply frame_200_content.
  - by apply frame_200_xml.
Qed.

(** X2.  A response whose status is neither 200 nor, for a POST, 400 makes
    [dorequest] return [None] without raising: the one request is the only
    one sent, and status and reason are those of the response. *)
Theorem dorequest_no_data t meth px m u res :
  ready m u ->
  server (sent (world m)) (request_of m u t meth) = Responded res ->
  resp_status res <> 200 ->
  resp_status res <> 400 \/ meth <> "POST" ->
  dorequest t meth px m = (Ret None, answered m (request_of m u t meth) res)
  /\ status (self (snd (dorequest t meth px m))) = resp_status res
  /\ reason (self (snd (dorequest t meth px m))) = resp_reason res
  /\ sent (world (snd (dorequest t meth px m)))
     = sent (world m) ++ [request_of m u t meth].
Proof.
  intros Hr Hs H200 Hno.
  assert (Hd : dorequest t meth px m
               = (Ret None, answered m (request_of m u t meth) res))
    by (by apply frame_other_status).
  split; [done|]. by rewrite Hd.
Qed.

(** X4.  Without a query path or a base address no transaction takes
    place: [dorequest] and [doheadrequest] raise (AttributeError for the
    missing query path, else TypeError for the missing address) before
    anything is sent, and status and reason stay as they were. *)
Theorem no_address_no_traffic t meth px m :
  querypath (self m) = None \/ baseurl (self m) = None ->
  fst (dorequest t meth px m) = Raise (address_error m)
  /\ fst (doheadrequest t m) = Raise (address_error m)
  /\ world (snd (dorequest t meth px m)) = world m
  /\ world (snd (doheadrequest t m)) = world m
  /\ status (self (snd (dorequest t meth px m))) = status (self m)
  /\ status (self (snd (doheadrequest t m))) = status (self m)
  /\ reason (self (snd (dorequest t meth px m))) = reason (self m)
  /\ reason (self (snd (doheadrequest t m))) = reason (self m).
Proof.
  intros H. unfold dorequest.
  rewrite (frame_no_address 1 t meth px m H), (head_no_address t m H).
  by repeat split.
Qed.

(** X5.  Only a socket timeout met while the response is awaited is turned
    into [TimeOutError].  A failure to connect or to send (a timeout among
    them) and any other failure while waiting leave [dorequest] as they
    are, and status and reason are not touched. *)
Theorem transport_failure_propagates t meth px m u e :
  ready m u ->
  server (sent (world m)) (request_of m u t meth) = SendFailed e
  \/ (server (sent (world m)) (request_of m u t meth) = AwaitFailed e
      /\ e <> socket_timeout) ->
  fst (dorequest t meth px m) = Raise e
  /\ status (self (snd (dorequest t meth px m))) = status (self m)
  /\ reason (self (snd (dorequest t meth px m))) = reason (self m)
  /\ sent (world (snd (dorequest t meth px m)))
     = sent (world m) ++ [request_of m u t meth].
Proof.
  intros Hr [Hs|[Hs He]]; unfold dorequest.
  - by rewrite (frame_send_failed 1 t meth px m u e Hr Hs).
  - by rewrite (frame_await_failed 1 t meth px m u e Hr Hs He).
Qed.

(** ** The requests of a call *)

(** A frame on a ready session sends its request and stops, or is a POST
    refused with 400 and hands over to the GET frame. *)
Lemma frame_ready_cases d t meth px m u :
  ready m u ->
  sent (world (snd (dorequest_rec (S d) t meth px m)))
  = sent (world m) ++ [request_of m u t meth]
  \/ exists res,
      meth = "POST"
      /\ dorequest_rec (S d) t meth px m
         = dorequest_rec d settings_TIMEOUT "GET" px
             (answered m (request_of m u t meth) res).
Proof.
  intros Hr.
  destruct (server (sent (world m)) (request_of m u t meth))
    as [e|e|res] eqn:Hs.
  - left. by rewrite (frame_send_failed d t meth px m u e Hr Hs).
  - assert (e = socket_timeout \/ e <> socket_timeout) as [->|Hne]
      by (destruct e; (by left) || (by right)).
    + left. by rewrite (dorequest_rec_timeout d t meth px m u Hr Hs).
    + left. by rewrite (frame_await_failed d t meth px m u e Hr Hs Hne).
  - destruct (Z.eq_dec (resp_status res) 200) as [H200|H200].
    + left. destruct (resp_body res) as [e|body] eqn:Hbody.
      * by rewrite (frame_200_unread d t meth px m u res e Hr Hs H200 Hbody).
      * destruct px.
        -- rewrite (frame_200_xml d t meth m u res body Hr Hs H200 Hbody).
           by destruct (populate_model body).
        -- by rewrite (frame_200_content d t meth m u res body Hr Hs H200 Hbody).
    + destruct (Z.eq_dec (resp_status res) 400) as [H400|H400].
      * destruct (String.eqb_spec meth "POST") as [->|Hm].
        -- right. exists res. split; [done|].
           by apply dorequest_rec_400_post.
        -- left. rewrite (frame_other_status d t meth px m u res Hr Hs H200);
             [done|by right].
      * left. rewrite (frame_other_status d t meth px m u res Hr Hs H200);
          [done|by left].
Qed.

(** On a ready session [dorequest] sends its request, and after it at most
    the GET of the fallback. *)
Lemma dorequest_requests t meth px m u :
  ready m u ->
  sent (world (snd (dorequest t meth px m)))
  = sent (world m) ++ [request_of m u t meth]
  \/ (meth = "POST"
      /\ sent (world (snd (dorequest t meth px m)))
         = sent (world m)
           ++ [request_of m u t meth; request_of m u settings_TIMEOUT "GET"]).
Proof.
  intros Hr. unfold dorequest.
  destruct (frame_ready_cases 1 t meth px m u Hr) as [H|(res & -> & Ho)];
    [by left|right].
  split; [done|]. rewrite Ho.
  rewrite (single_transaction 0 settings_TIMEOUT "GET" px _ u);
    [| by apply ready_answered | discriminate].
  cbn. by rewrite <- app_assoc.
Qed.

(** A session that cannot build its url sends nothing. *)
Lemma dorequest_not_ready t meth px m :
  (forall u, ~ ready m u) ->
  world (snd (dorequest t meth px m)) = world m.
Proof.
  intros Hn. destruct (ready_or_not m) as [[u Hr]|[_ H]];
    [by destruct (Hn u)|]. unfold dorequest.
  destruct H as [H|[H|(b & p & e & Hb & Hp & Hu)]].
  - rewrite (frame_no_address 1 t meth px m); [done|by left].
  - rewrite (frame_no_address 1 t meth px m); [done|by right].
  - by rewrite (frame_no_split 1 t meth px m b p e Hb Hp Hu).
Qed.

Lemma request_of_shape m u t meth :
  req_method (request_of m u t meth) = meth
  /\ req_target (request_of m u t meth) = target u
  /\ req_host (request_of m u t meth) = netloc u
  /\ (unverified (request_of m u t meth) = true
      <-> scheme u = "https" /\ verifyhttps (self m) = false).
Proof.
  unfold request_of, req_host, unverified, conn_for; cbn.
  destruct (String.eqb_spec (scheme u) "https") as [Hs|Hs];
    destruct (verifyhttps (self m)); cbn; repeat split; try done;
    try (intros [? ?]; done).
Qed.

(** X3.  Whatever the session and the network, [dorequest] sends at most two
    requests and prints nothing: the first with the method and the timeout
    of the caller, the second, only after a POST, a GET with the default
    timeout.  Two frames of the call stack are always enough. *)
Theorem dorequest_sends_at_most_two t meth px m :
  exists ext,
    sent (world (snd (dorequest t meth px m))) = sent (world m) ++ ext
    /\ (length ext <= 2)%nat
    /\ (forall rq, ext !! 0%nat = Some rq ->
                   req_method rq = meth /\ req_timeout rq = t)
    /\ (forall rq, ext !! 1%nat = Some rq ->
                   meth = "POST" /\ req_method rq = "GET"
                   /\ req_timeout rq = settings_TIMEOUT)
    /\ (forall d, (2 <= d)%nat ->
                  dorequest_rec d t meth px m = dorequest t meth px m).
Proof.
  assert (Hd : forall d, (2 <= d)%nat ->
                         dorequest_rec d t meth px m = dorequest t meth px m)
    by (intros d; apply dorequest_rec_depth).
  destruct (ready_or_not m) as [[u Hr]|[Hn _]].
  - destruct (dorequest_requests t meth px m u Hr) as [H|[-> H]].
    + exists [request_of m u t meth]. split; [done|]. split; [cbn; lia|].
      split; [|split; [by intros rq|done]].
      intros rq [= <-]. by rewrite req_timeout_request_of.
    + exists [request_of m u t "POST"; request_of m u settings_TIMEOUT "GET"].
      split; [done|]. split; [cbn; lia|].
      split; [|split; [|done]].
      * intros rq [= <-]. by rewrite req_timeout_request_of.
      * intros rq [= <-]. by rewrite req_timeout_request_of.
  - exists []. rewrite (dorequest_not_ready t meth px m Hn), app_nil_r.
    split; [done|]. split; [cbn; lia|]. by repeat split.
Qed.

(** ** The head transaction, whatever the answer *)

Lemma head_failed t m u e :
  ready m u ->
  server (sent (world m)) (request_of m u t "HEAD") = SendFailed e
  \/ (server (sent (world m)) (request_of m u t "HEAD") = AwaitFailed e
      /\ e <> socket_timeout) ->
  doheadrequest t m
  = (Raise e,
     put_on_wire (request_of m u t "HEAD") (with_headers ∅ (self m)) m).
Proof.
  intros (b & p & Hb & Hp & Hu) Hs.
  destruct m as [s w]; unfold request_of, put_on_wire in *; cbn in *.
  unfold doheadrequest; mrun. rewrite Hp, Hb; mrun. rewrite Hu; mrun.
  destruct Hs as [Hs|[Hs He]]; rewrite Hs; [done|by destruct e].
Qed.

(** The fate of the HEAD request decides the head transaction. *)
Lemma head_ready_cases t m u :
  ready m u ->
  (exists e,
      doheadrequest t m
      = (Raise e,
         put_on_wire (request_of m u t "HEAD") (with_headers ∅ (self m)) m))
  \/ doheadrequest t m
     = (Raise TimeOutError,
        put_on_wire (request_of m u t "HEAD")
          (with_reason "Socket timeout"
             (with_status 408 (with_headers ∅ (self m)))) m)
  \/ exists res,
      server (sent (world m)) (request_of m u t "HEAD") = Responded res
      /\ doheadrequest t m
         = (Ret tt,
            mkMachine
              (with_headers (dict_update ∅ (head_pairs res))
                 (with_reason (resp_reason res)
                    (with_status (resp_status res) (self m))))
              (mkWorld (sent (world m) ++ [request_of m u t "HEAD"])
                       (stdout (world m) ++ head_lines res))).
Proof.
  intros Hr.
  destruct (server (sent (world m)) (request_of m u t "HEAD"))
    as [e|e|res] eqn:Hs.
  - left. exists e. apply head_failed; [done|by left].
  - assert (e = socket_timeout \/ e <> socket_timeout) as [->|Hne]
      by (destruct e; (by left) || (by right)).
    + right; left. by apply doheadrequest_timeout.
    + left. exists e. apply head_failed; [done|by right].
  - right; right. exists res. split; [done|].
    by apply doheadrequest_responded.
Qed.

Lemma head_not_ready t m :
  (forall u, ~ ready m u) ->
  exists e,
    doheadrequest t m
    = (Raise e, mkMachine (with_headers ∅ (self m)) (world m)).
Proof.
  intros Hn. destruct (ready_or_not m) as [[u Hr]|[_ H]];
    [by destruct (Hn u)|].
  destruct H as [H|[H|(b & p & e & Hb & Hp & Hu)]].
  - exists (address_error m). apply head_no_address. by left.
  - exists (address_error m). apply head_no_address. by right.
  - exists e. destruct m as [s w]; cbn in *.
    unfold doheadrequest; mrun. rewrite Hp, Hb; mrun. by rewrite Hu.
Qed.

(** X6.  Every request that [dorequest] or [doheadrequest] sends goes to the
    host and the target of the session's url, and it goes over TLS without
    verification of the certificate exactly when the scheme is https and
    the session was built with [verifyhttps] false. *)
Theorem requests_follow_the_session t meth px m u :
  ready m u ->
  exists ext ext',
    sent (world (snd (dorequest t meth px m))) = sent (world m) ++ ext
    /\ sent (world (snd (doheadrequest t m))) = sent (world m) ++ ext'
    /\ forall rq,
        In rq (ext ++ ext') ->
        req_target rq = target u
        /\ req_host rq = netloc u
        /\ (unverified rq = true
            <-> scheme u = "https" /\ verifyhttps (self m) = false).
Proof.
  intros Hr.
  assert (Hh : sent (world (snd (doheadrequest t m)))
               = sent (world m) ++ [request_of m u t "HEAD"]).
  { destruct (head_ready_cases t m u Hr) as [[e ->]|[->|(res & _ & ->)]];
      done. }
  assert (Hshape : forall t' meth' rq,
             rq = request_of m u t' meth' ->
             req_target rq = target u
             /\ req_host rq = netloc u
             /\ (unverified rq = true
                 <-> scheme u = "https" /\ verifyhttps (self m) = false)).
  { intros t' meth' rq ->.
    by destruct (request_of_shape m u t' meth') as (_ & ? & ? & ?). }
  destruct (dorequest_requests t meth px m u Hr) as [H|[-> H]].
  - exists [request_of m u t meth], [request_of m u t "HEAD"].
    split; [done|]. split; [done|].
    intros rq [<-|[<-|[]]]; by eapply Hshape.
  - exists [request_of m u t "POST"; request_of m u settings_TIMEOUT "GET"],
           [request_of m u t "HEAD"].
    split; [done|]. split; [done|].
    intros rq [<-|[<-|[<-|[]]]]; by eapply Hshape.
Qed.

(** X7.  On a ready session the head transaction sends exactly one HEAD
    request with the timeout of the caller, whatever comes back: a 400 is
    not retried with another method.  For a response it prints nothing on
    200 and 204, [TIMEOUT] on 408 and the status otherwise. *)
Theorem doheadrequest_single_request t m u :
  ready m u ->
  sent (world (snd (doheadrequest t m)))
  = sent (world m) ++ [request_of m u t "HEAD"]
  /\ forall res,
      server (sent (world m)) (request_of m u t "HEAD") = Responded res ->
      stdout (world (snd (doheadrequest t m)))
      = stdout (world m)
        ++ (if resp_status res =? 200 then []
            else if resp_status res =? 204 then []
            else if resp_status res =? 408 then ["TIMEOUT"]
            else ["STATUS: " +:+ Py.fmt_d (resp_status res)])
      /\ status (self (snd (doheadrequest t m))) = resp_status res.
Proof.
  intros Hr. split.
  - destruct (head_ready_cases t m u Hr) as [[e ->]|[->|(res & _ & ->)]];
      done.
  - intros res Hs. by rewrite (doheadrequest_responded t m u res Hr Hs).
Qed.

(** X8.  A head transaction that raises leaves an empty header mapping:
    the headers of an earlier transaction do not survive a failed one. *)
Theorem failed_head_drops_headers t m e :
  fst (doheadrequest t m) = Raise e ->
  headers (self (snd (doheadrequest t m))) = Some ∅.
Proof.
  destruct (ready_or_not m) as [[u Hr]|[Hn _]].
  - destruct (head_ready_cases t m u Hr) as [[e' ->]|[->|(res & _ & ->)]];
      done.
  - by destruct (head_not_ready t m Hn) as [e' ->].
Qed.

(** ** The result and the status *)

(** [dorequest] touches [self.xml], the status and the reason, and nothing
    else of the session; it prints nothing. *)
Lemma dorequest_rec_frame d t meth px m :
  headers (self (snd (dorequest_rec d t meth px m))) = headers (self m)
  /\ lastmodified (self (snd (dorequest_rec d t meth px m)))
     = lastmodified (self m)
  /\ node (self (snd (dorequest_rec d t meth px m))) = node (self m)
  /\ verifyhttps (self (snd (dorequest_rec d t meth px m)))
     = verifyhttps (self m)
  /\ stdout (world (snd (dorequest_rec d t meth px m))) = stdout (world m).
Proof.
  revert t meth m. induction d as [|d IH]; intros t meth m; [done|].
  destruct m as [s w]. cbn [dorequest_rec]; mrun.
  repeat (mcase; mrun); try done;
    match goal with
    | |- context [dorequest_rec d ?t ?me px ?m'] =>
        destruct (IH t me m') as (-> & -> & -> & -> & ->); by cbn
    end.
Qed.

Lemma dorequest_rec_result_status d t meth px m :
  (forall res, fst (dorequest_rec d t meth px m) = Ret (Some res) ->
               status (self (snd (dorequest_rec d t meth px m))) = 200)
  /\ (fst (dorequest_rec d t meth px m) = Ret None ->
      status (self (snd (dorequest_rec d t meth px m))) <> 200).
Proof.
  revert t meth m. induction d as [|d IH]; intros t meth m; [done|].
  destruct m as [s w]. cbn [dorequest_rec]; mrun.
  repeat (mcase; mrun); try (by split);
    try (split; [done|]; intros _; by apply Z.eqb_neq);
    try (split; [intros ? _; by apply Z.eqb_eq|done]);
    apply IH.
Qed.

(** X11.  [dorequest] returns a result only with status 200, and [None]
    only with another status: the caller can tell data from no data by the
    recorded status. *)
Theorem dorequest_result_status t meth px m :
  (forall res, fst (dorequest t meth px m) = Ret (Some res) ->
               status (self (snd (dorequest t meth px m))) = 200)
  /\ (fst (dorequest t meth px m) = Ret None ->
      status (self (snd (dorequest t meth px m))) <> 200).
Proof. apply dorequest_rec_result_status. Qed.

(** ** The date of last modification, case by case *)

Lemma getlastmodified_fresh_status m :
  status (self m) = 200 -> getlastmodified m = read_lastmodified m.
Proof.
  intros Hst. destruct m as [s w]; cbn in Hst.
  unfold getlastmodified, read_lastmodified. unfold bind at 1, get at 1.
  cbn [self]. rewrite Hst. reflexivity.
Qed.

Lemma getlastmodified_refreshed m :
  status (self m) <> 200 ->
  getlastmodified m
  = match doheadrequest settings_TIMEOUT m with
    | (Ret _, m') => read_lastmodified m'
    | (Raise e, m') => (Raise e, m')
    end.
Proof.
  intros Hst. apply Z.eqb_neq in Hst. destruct m as [s w]; cbn in Hst.
  unfold getlastmodified, read_lastmodified. unfold bind at 1, get at 1.
  cbn [self]. rewrite Hst. cbn [negb]. unfold bind at 1.
  by destruct (doheadrequest _ _) as [[[]|e] m'].
Qed.

Lemma read_keeps_sent m :
  sent (world (snd (read_lastmodified m))) = sent (world m).
Proof.
  destruct m as [s w]. unfold read_lastmodified; mrun.
  destruct (headers s) as [h|]; mrun; [|done].
  destruct (h !! "last-modified") as [v|]; mrun.
  - unfold parse_value; destruct v as [x|z]; mrun;
      [destruct (parse x) as [e|ts]; mrun|];
      by destruct (lastmodified s).
  - destruct (status s =? 204); mrun; by try destruct (lastmodified s).
Qed.

Lemma read_no_headers m :
  headers (self m) = None ->
  read_lastmodified m = (Raise (AttributeError "headers"), m).
Proof.
  intros Hh. destruct m as [s w]; cbn in Hh.
  unfold read_lastmodified; mrun. by rewrite Hh.
Qed.

Lemma read_no_date m h :
  headers (self m) = Some h ->
  h !! "last-modified" = None ->
  read_lastmodified m
  = if status (self m) =? 204
    then (Raise (NoContentError "requets.getlastmodified"), m)
    else (Ret None, mkMachine (with_lastmodified None (self m)) (world m)).
Proof.
  intros Hh Hl. destruct m as [s w]; cbn in Hh |- *.
  unfold read_lastmodified; mrun. rewrite Hh; mrun. rewrite Hl; mrun.
  destruct (status s =? 204); mrun; by rewrite ?Hh.
Qed.

Lemma read_date m h x ts :
  headers (self m) = Some h ->
  h !! "last-modified" = Some (HStr x) ->
  parse x = inr ts ->
  read_lastmodified m
  = (Ret (Some ts),
     mkMachine (with_lastmodified (Some ts) (self m)) (world m)).
Proof.
  intros Hh Hl Hp. destruct m as [s w]; cbn in Hh |- *.
  unfold read_lastmodified; mrun. rewrite Hh; mrun. rewrite Hl.
  unfold parse_value; mrun. rewrite Hp; mrun. by rewrite ?Hh.
Qed.

Lemma default_headers_no_date :
  dict_update ∅ default_headers !! "last-modified" = None.
Proof.
  rewrite dict_update_lookup.
  replace (last_value "last-modified" default_headers) with (@None HeaderVal)
    by (by vm_compute).
  apply lookup_empty.
Qed.

(** The session as a head transaction with response [res] leaves it. *)
Lemma head_answer_state t m u res :
  ready m u ->
  server (sent (world m)) (request_of m u t "HEAD") = Responded res ->
  exists m',
    doheadrequest t m = (Ret tt, m')
    /\ headers (self m') = Some (dict_update ∅ (head_pairs res))
    /\ status (self m') = resp_status res
    /\ lastmodified (self m') = lastmodified (self m).
Proof.
  intros Hr Hs. eexists. split; [by apply doheadrequest_responded|done].
Qed.

(** X9.  [getlastmodified] runs the head transaction exactly when the
    recorded status is not 200: with status 200 it sends nothing; otherwise
    a ready session sends one HEAD request, with the default timeout. *)
Theorem getlastmodified_refresh m :
  (status (self m) = 200 ->
   sent (world (snd (getlastmodified m))) = sent (world m))
  /\ (status (self m) <> 200 ->
      forall u, ready m u ->
      sent (world (snd (getlastmodified m)))
      = sent (world m) ++ [request_of m u settings_TIMEOUT "HEAD"]).
Proof.
  split.
  - intros Hst. rewrite (getlastmodified_fresh_status m Hst).
    apply read_keeps_sent.
  - intros Hst u Hr. rewrite (getlastmodified_refreshed m Hst).
    destruct (head_ready_cases settings_TIMEOUT m u Hr)
      as [[e ->]|[->|(res & _ & ->)]]; [done|done|].
    by rewrite read_keeps_sent.
Qed.

(** X10.  After a [dorequest] that returned a result on a session that
    never ran a head transaction, [getlastmodified] raises AttributeError:
    the status is 200, so no head transaction is run, and [self.headers]
    does not exist. *)
Theorem getlastmodified_after_dorequest t meth px m res :
  headers (self m) = None ->
  fst (dorequest t meth px m) = Ret (Some res) ->
  getlastmodified (snd (dorequest t meth px m))
  = (Raise (AttributeError "headers"), snd (dorequest t meth px m)).
Proof.
  intros Hh Hres.
  destruct (dorequest_rec_result_status 2 t meth px m) as [H200 _].
  destruct (dorequest_rec_frame 2 t meth px m) as (Hk & _).
  rewrite getlastmodified_fresh_status; [|by apply (H200 res)].
  apply read_no_headers. unfold dorequest. by rewrite Hk.
Qed.

(** X12.  When the refreshing head transaction is answered with a status
    other than 200, the mapping holds the defaults and no date: with 204
    [getlastmodified] raises NoContentError, with any other status it
    returns [None] and stores [None]. *)
Theorem getlastmodified_without_date m u res :
  ready m u ->
  status (self m) <> 200 ->
  server (sent (world m)) (request_of m u settings_TIMEOUT "HEAD")
  = Responded res ->
  resp_status res <> 200 ->
  (resp_status res = 204 ->
   fst (getlastmodified m) = Raise (NoContentError "requets.getlastmodified")
   /\ lastmodified (self (snd (getlastmodified m))) = lastmodified (self m))
  /\ (resp_status res <> 204 ->
      fst (getlastmodified m) = Ret None
      /\ lastmodified (self (snd (getlastmodified m))) = Some None).
Proof.
  intros Hr Hst Hs Hne.
  destruct (head_answer_state _ m u res Hr Hs) as (m' & Hd & Hh & Hst' & Hl).
  rewrite (getlastmodified_refreshed m Hst), Hd.
  assert (Hnone : dict_update ∅ (head_pairs res) !! "last-modified" = None).
  { unfold head_pairs. apply Z.eqb_neq in Hne. rewrite Hne.
    apply default_headers_no_date. }
  rewrite (read_no_date m' _ Hh Hnone), Hst'. split.
  - intros ->. by cbn.
  - intros H204. apply Z.eqb_neq in H204. by rewrite H204.
Qed.

(** X13.  When the refreshing head transaction is answered with 200, the
    date is the last [last-modified] header of the response: if it parses,
    [getlastmodified] returns the time stamp and stores it; if the response
    has no such header, it returns [None] and stores [None]. *)
Theorem getlastmodified_with_date m u res :
  ready m u ->
  status (self m) <> 200 ->
  server (sent (world m)) (request_of m u settings_TIMEOUT "HEAD")
  = Responded res ->
  resp_status res = 200 ->
  (forall x ts,
      last_value "last-modified" (resp_headers res) = Some x ->
      parse x = inr ts ->
      fst (getlastmodified m) = Ret (Some ts)
      /\ lastmodified (self (snd (getlastmodified m))) = Some (Some ts))
  /\ (last_value "last-modified" (resp_headers res) = None ->
      fst (getlastmodified m) = Ret None
      /\ lastmodified (self (snd (getlastmodified m))) = Some None).
Proof.
  intros Hr Hst Hs H200.
  destruct (head_answer_state _ m u res Hr Hs) as (m' & Hd & Hh & Hst' & Hl).
  rewrite (getlastmodified_refreshed m Hst), Hd.
  assert (Hlook : dict_update ∅ (head_pairs res) !! "last-modified"
                  = HStr <$> last_value "last-modified" (resp_headers res)).
  { unfold head_pairs. rewrite H200. cbn [Z.eqb Pos.eqb].
    rewrite dict_update_lookup, last_value_map, lookup_empty.
    by destruct (last_value _ _). }
  split.
  - intros x ts Hx Hp. rewrite Hx in Hlook.
    by rewrite (read_date m' _ x ts Hh Hlook Hp).
  - intros Hx. rewrite Hx in Hlook.
    rewrite (read_no_date m' _ Hh Hlook), Hst', H200. by cbn.
Qed.

(** ** Assigning again *)

(** X14.  Assigning the same node, or the same query, a second time leaves
    the session as the first assignment left it and ends in the same way:
    the suffix is taken from the url of the node and is not appended to the
    stored address again. *)
Theorem reassignment_is_idempotent node qa m :
  setnode node (snd (setnode node m)) = setnode node m
  /\ setquery qa (snd (setquery qa m)) = setquery qa m.
Proof.
  split.
  - destruct m as [s w]. unfold setnode, add_sync; mrun.
    destruct node as [nm|n|]; mrun; [destruct (findnode nm) as [e|[n|]]| |];
      mrun; try done;
      (destruct (nodes.url n) as [u|] eqn:Hu; mrun; rewrite ?Hu; [|done];
       destruct (Nat.eqb (String.length u) 0) eqn:Hlen; mrun;
       rewrite ?Hu, ?Hlen; [done|];
       destruct (last_char_nonempty u) as [c Hc]; [by intros ->|];
       rewrite Hc; destruct (Ascii.eqb c "/") eqn:Hslash; mrun;
       by rewrite ?Hu, ?Hlen, ?Hc, ?Hslash).
  - destruct m as [s w]. by destruct qa.
Qed.

(** ** The base address along a sequence of calls *)

Lemma head_keeps_baseurl t m :
  baseurl (self (snd (doheadrequest t m))) = baseurl (self m).
Proof.
  destruct (ready_or_not m) as [[u Hr]|[Hn _]].
  - destruct (head_ready_cases t m u Hr) as [[e' ->]|[->|(res & _ & ->)]];
      done.
  - by destruct (head_not_ready t m Hn) as [e' ->].
Qed.

Lemma read_keeps_baseurl m :
  baseurl (self (snd (read_lastmodified m))) = baseurl (self m).
Proof.
  destruct m as [s w]. unfold read_lastmodified; mrun.
  destruct (headers s) as [h|]; mrun; [|done].
  destruct (h !! "last-modified") as [v|]; mrun.
  - unfold parse_value; destruct v as [x|z]; mrun;
      [destruct (parse x) as [e|ts]; mrun|];
      by destruct (lastmodified s).
  - destruct (status s =? 204); mrun; by try destruct (lastmodified s).
Qed.

Lemma getlastmodified_keeps_baseurl m :
  baseurl (self (snd (getlastmodified m))) = baseurl (self m).
Proof.
  destruct (Z.eq_dec (status (self m)) 200) as [Hst|Hst].
  - rewrite (getlastmodified_fresh_status m Hst). apply read_keeps_baseurl.
  - rewrite (getlastmodified_refreshed m Hst).
    pose proof (head_keeps_baseurl settings_TIMEOUT m) as Hk.
    destruct (doheadrequest settings_TIMEOUT m) as [[[]|e] m']; cbn in Hk;
      [|done]. by rewrite read_keeps_baseurl.
Qed.

(** [Request.getspecies] is [dorequest] with its defaults after the query
    was assigned. *)
Lemma getspecies_unfold m :
  getspecies m
  = dorequest settings_TIMEOUT "POST" true
      (snd (setquery (QStr querystring_species) m)).
Proof.
  unfold getspecies, bind at 1. rewrite setquery_str. cbn [snd].
  unfold bind, ret. by destruct (dorequest _ _ _ _) as [[v|e] m'].
Qed.

Lemma call_keeps_normalized c m :
  gives_address c -> normalized m -> normalized (call c m).
Proof.
  intros Hc Hn. destruct c as [nd|b|qa|t meth px|t| |];
    cbn [call gives_address] in *.
  - by apply setnode_keeps_normalized.
  - by apply setbaseurl_normalized.
  - by apply setquery_keeps_normalized.
  - by apply dorequest_keeps_normalized.
  - unfold normalized in *. by rewrite head_keeps_baseurl.
  - unfold normalized in *. by rewrite getlastmodified_keeps_baseurl.
  - rewrite getspecies_unfold. apply dorequest_keeps_normalized.
    by apply setquery_keeps_normalized.
Qed.

(** X15.  Along any sequence of calls of the session's methods, whatever
    they return or raise, the stored base address stays an address with its
    suffix appended once, provided [setbaseurl] is never given the empty
    address.  A new session has no address yet. *)
Theorem calls_keep_normalized l m :
  Forall gives_address l ->
  normalized m ->
  normalized (calls l m).
Proof.
  intros Hl. revert m. induction Hl as [|c l Hc Hl IH]; intros m Hn; [done|].
  cbn. apply IH. by apply call_keeps_normalized.
Qed.

(** ** The helpers of the module *)


Lemma first_try_none m : first_try None m = (Ret None, m).
Proof. by destruct m. Qed.

(** X17.  Which queries [do_species_data_request] makes, once the node is
    set: a result of the first attempt is returned and the second query is
    not made, even with a [vamdcspecies_id]; without any identifier [None]
    is returned and nothing is sent or printed; with a [vamdcspecies_id]
    only, the one query is [SELECT ALL WHERE VAMDCSpeciesID='<id>']. *)
Theorem species_request_plan node sid vid w m1 :
  setnode node (mkMachine (Request_new true) w) = (Ret tt, m1) ->
  (forall res m2,
      first_try sid m1 = (Ret (Some res), m2) ->
      do_species_data_request node sid vid w = (Ret (Some res), world m2))
  /\ (sid = None -> vid = None ->
      do_species_data_request node sid vid w = (Ret None, world m1))
  /\ (forall v,
         sid = None -> vid = Some v ->
         q.QueryText
           <$> query_ (self (snd (do_species_data_request_run node sid vid w)))
         = Some ("SELECT ALL WHERE VAMDCSpeciesID='" +:+ v +:+ "'")
         /\ exists lines,
             stdout (world (snd (do_species_data_request_run node sid vid w)))
             = stdout (world m1) ++ ("Processing: " +:+ v) :: lines).
Proof.
  intros Hn. split; [|split].
  - intros res m2 H1. unfold do_species_data_request.
    rewrite (do_species_data_request_run_eq _ _ _ _ _ Hn).
    unfold bind. rewrite H1. by destruct vid, m2.
  - intros -> ->. unfold do_species_data_request.
    rewrite (do_species_data_request_run_eq _ _ _ _ _ Hn).
    unfold bind. rewrite first_try_none. by destruct m1.
  - intros v -> ->.
    set (m2 := snd (setquery
                      (QStr ("SELECT ALL WHERE VAMDCSpeciesID='" +:+ v +:+ "'"))
                      (printed ("Processing: " +:+ v) m1))).
    assert (Hrun : do_species_data_request_run node None (Some v) w
                   = match dorequest settings_TIMEOUT "POST" true m2 with
                     | (Ret a, m3) => (Ret a, m3)
                     | (Raise e, m3) =>
                         (Ret None,
                          printed ("Query failed: " +:+ exn_str e) m3)
                     end).
    { rewrite (do_species_data_request_run_eq _ _ _ _ _ Hn).
      unfold bind at 1. rewrite first_try_none.
      unfold final_try, try_except, vamdcspecies_attempt, m2, printed; mrun.
      rewrite !setquery_str; mrun.
      by destruct (dorequest _ _ _ _) as [[a|e] m3]. }
    rewrite Hrun.
    destruct (dorequest_rec_keeps 2 settings_TIMEOUT "POST" true m2)
      as (Hq & _).
    destruct (dorequest_rec_frame 2 settings_TIMEOUT "POST" true m2)
      as (_ & _ & _ & _ & Hout).
    unfold dorequest.
    destruct (dorequest_rec 2 _ _ _ m2) as [[v'|e] m3];
      cbn [snd self world stdout printed] in Hq, Hout |- *;
      rewrite Hq, Hout; unfold m2; rewrite setquery_str;
      (split; [done|]).
    + by exists [].
    + exists ["Query failed: " +:+ exn_str e]. cbn. by rewrite <- app_assoc.
Qed.

Lemma split_no_dash b :
  Py.contains "-" b = false -> Py.split "-" b = [b].
Proof.
  induction b as [|a b IH]; [done|].
  cbn -[Ascii.eqb]. intros Hc. apply orb_false_iff in Hc as [Ha Hc].
  by rewrite Ha, (IH Hc).
Qed.

Lemma split_prefix a rest :
  Py.contains "-" a = false ->
  Py.split "-" (a +:+ "-" +:+ rest) = a :: Py.split "-" rest.
Proof.
  induction a as [|c a IH]; [done|].
  cbn -[Ascii.eqb]. intros Hc. apply orb_false_iff in Hc as [Ha Hc].
  change (String c a +:+ "-" +:+ rest) with (String c (a +:+ "-" +:+ rest)).
  cbn -[Ascii.eqb]. by rewrite Ha, (IH Hc).
Qed.

Lemma contains_dash a rest : Py.contains "-" (a +:+ "-" +:+ rest) = true.
Proof.
  induction a as [|c a IH]; [done|].
  change (String c a +:+ "-" +:+ rest) with (String c (a +:+ "-" +:+ rest)).
  cbn -[Ascii.eqb]. rewrite IH. apply orb_true_r.
Qed.

(** The query of the first attempt, given the identifier it extracts. *)
Lemma species_attempt_query s id m :
  (if Py.contains "-" s then nth_error (Py.split "-" s) 1 else Some s)
  = Some id ->
  q.QueryText <$> query_ (self (snd (species_attempt (Some (SidStr s)) m)))
  = Some ("SELECT ALL WHERE SpeciesID=" +:+ id).
Proof.
  intros Hid. unfold species_attempt. unfold bind at 1.
  assert (Hget : (if Py.contains "-" s
                  then match nth_error (Py.split "-" s) 1 with
                       | Some x => ret x
                       | None => raise (IndexError "list index out of range")
                       end
                  else ret s) m = (Ret id, m)).
  { destruct (Py.contains "-" s).
    - by rewrite Hid.
    - by inversion Hid. }
  rewrite Hget. unfold bind at 1, print at 1. unfold bind at 1.
  rewrite setquery_str. cbn [snd].
  set (m2 := mkMachine _ _).
  destruct (dorequest_rec_keeps 2 settings_TIMEOUT "POST" true m2)
    as (Hq & _).
  unfold dorequest. by rewrite Hq.
Qed.

(** X18.  The identifier that [do_species_data_request] puts in its first
    query is the second of the pieces between '-' signs: for [a-b] it is
    [b], for [a-b-c] it is [b] again (what follows a second '-' is
    dropped), and an identifier without '-' is used whole. *)
Theorem species_id_is_second_piece a b c m :
  Py.contains "-" a = false ->
  Py.contains "-" b = false ->
  q.QueryText
    <$> query_ (self (snd (species_attempt
                             (Some (SidStr (a +:+ "-" +:+ b +:+ "-" +:+ c))) m)))
  = Some ("SELECT ALL WHERE SpeciesID=" +:+ b)
  /\ q.QueryText
       <$> query_ (self (snd (species_attempt
                                (Some (SidStr (a +:+ "-" +:+ b))) m)))
     = Some ("SELECT ALL WHERE SpeciesID=" +:+ b)
  /\ q.QueryText <$> query_ (self (snd (species_attempt (Some (SidStr b)) m)))
     = Some ("SELECT ALL WHERE SpeciesID=" +:+ b).
Proof.
  intros Ha Hb. split; [|split]; apply species_attempt_query.
  - by rewrite contains_dash, (split_prefix a _ Ha), (split_prefix b _ Hb).
  - by rewrite contains_dash, (split_prefix a _ Ha), (split_no_dash b Hb).
  - by rewrite Hb.
Qed.

(** X19.  [do_species_data_request] raises exactly when setting the node
    raises, and then with the same exception: whatever happens in the two
    attempts is caught. *)
Theorem species_request_raises_only_for_node node sid vid w e :
  fst (do_species_data_request node sid vid w) = Raise e
  <-> fst (setnode node (mkMachine (Request_new true) w)) = Raise e.
Proof.
  destruct (setnode node (mkMachine (Request_new true) w))
    as [[[]|e'] m1] eqn:Hn.
  - unfold do_species_data_request.
    rewrite (do_species_data_request_run_eq _ _ _ _ _ Hn).
    unfold bind, first_try, final_try, try_except.
    destruct (species_attempt sid m1) as [[r1|e1] m2]; mrun;
      destruct (vamdcspecies_attempt vid _ _) as [[r2|e2] m3]; mrun;
      by split.
  - unfold do_species_data_request, do_species_data_request_run, run, init;
      mrun. rewrite Hn. cbn. split; by intros [= ->].
Qed.

(** ** The node by its name, and the stored document *)

(** X21.  [setnode] with a name asks the registry: a node that is found is
    assigned as if it had been given itself; a failure of the lookup is
    raised as it is, after status and reason were reset, with the node and
    the base address of the session kept and nothing printed. *)
Theorem setnode_by_name name m :
  (forall n, findnode name = inr n ->
             setnode (NodeStr name) m
             = setnode (match n with
                        | Some nd => NodeObj nd
                        | None => NodeNone
                        end) m)
  /\ (forall e, findnode name = inl e ->
                setnode (NodeStr name) m
                = (Raise e,
                   mkMachine (with_reason "INIT" (with_status 0 (self m)))
                             (world m))).
Proof.
  split.
  - intros n Hf. unfold setnode; mrun. rewrite Hf. by destruct n.
  - intros e Hf. unfold setnode; mrun. by rewrite Hf.
Qed.




(** ** The species of a node *)

Section SpeciesOfNode.
Variable Species : Type.
Variable table : r.Result -> string -> Exn + gmap string Species.

Lemma request_getspecies_run_eq node output w m1 data m2 :
  setnode node (mkMachine (Request_new true) w) = (Ret tt, m1) ->
  getspecies m1 = (Ret data, m2) ->
  request.getspecies_run Species table node output w
  = (if String.eqb output "flat" then
       ret_value <- request.update_all Species table data
                      ["Atoms"; "Molecules"] ∅ ;;
       ret (request.Flat Species ret_value)
     else
       ret_value <- request.collect Species table data
                      ["Atoms"; "Molecules"] ∅ ;;
       ret (request.Struct Species ret_value)) m2.
Proof.
  intros Hn Hg. unfold request.getspecies_run, run, init; mrun.
  rewrite Hn, Hg. reflexivity.
Qed.

(** X20.  The module-level [getspecies], once the node is set and
    [Request.getspecies] has returned.  With output 'flat' it never raises:
    it gives the species of the tables that could be read, those of
    'Molecules' over those of 'Atoms', and the empty dictionary when there
    is no result (a status other than 200).  With any other output, no
    result makes it raise AttributeError. *)
Theorem species_of_node node w m1 data m2 :
  setnode node (mkMachine (Request_new true) w) = (Ret tt, m1) ->
  getspecies m1 = (Ret data, m2) ->
  (exists d,
      request.getspecies Species table node "flat" w
      = (Ret (request.Flat Species d), world m2)
      /\ forall k,
          d !! k
          = match request.table_or_empty Species table data "Molecules" !! k
            with
            | Some v => Some v
            | None =>
                request.table_or_empty Species table data "Atoms" !! k
            end)
  /\ (data = None ->
      request.getspecies Species table node "flat" w
      = (Ret (request.Flat Species ∅), world m2)
      /\ forall output,
          output <> "flat" ->
          request.getspecies Species table node output w
          = (Raise (AttributeError "data"), world m2)).
Proof.
  intros Hn Hg. split.
  - exists (request.table_or_empty Species table data "Molecules"
            ∪ request.table_or_empty Species table data "Atoms").
    split.
    + unfold request.getspecies.
      rewrite (request_getspecies_run_eq _ _ _ _ _ _ Hn Hg).
      cbn [String.eqb Ascii.eqb Bool.eqb]. destruct m2 as [s2 w2].
      unfold request.table_or_empty, request.data_of.
      destruct data as [res|]; cbn -[union];
        unfold bind, try_except, ret, raise, of_sum; cbn -[union].
      * destruct (table res "Atoms") as [e|ta]; cbn -[union];
          destruct (table res "Molecules") as [e'|tm]; cbn -[union];
          unfold result_of; cbn -[union];
          by rewrite ?(right_id_L ∅ (∪)), ?(left_id_L ∅ (∪)).
      * unfold result_of; cbn -[union]. by rewrite (left_id_L ∅ (∪)).
    + intros k. rewrite lookup_union.
      destruct (_ !! k) as [v|]; [by destruct (_ !! k)|].
      by destruct (_ !! k).
  - intros ->. split.
    + unfold request.getspecies.
      rewrite (request_getspecies_run_eq _ _ _ _ _ _ Hn Hg).
      by destruct m2.
    + intros output Ho. apply String.eqb_neq in Ho.
      unfold request.getspecies.
      rewrite (request_getspecies_run_eq _ _ _ _ _ _ Hn Hg), Ho.
      by destruct m2.
Qed.

End SpeciesOfNode.

End Coverage.

(** * The further properties on concrete nodes *)

Module CoverageExamples.

(** A GET served with 200, read without parsing. *)
Lemma dorequest_success_witness :
  @ready Demo.Cpost (@Demo.session Demo.Cpost) Demo.session_url
  /\ fst (@dorequest Demo.Cpost 5 "GET" false (@Demo.session Demo.Cpost))
     = Ret (Some (r.mkResult (Some "<XSAMSData/>") None None))
  /\ fst (@dorequest Demo.Cpost 5 "GET" true (@Demo.session Demo.Cpost))
     = Ret (Some (r.mkResult None (Some "<XSAMSData/>")
                             (Some [("document", "<XSAMSData/>")]))).
Proof.
  assert (Hr : @ready Demo.Cpost (@Demo.session Demo.Cpost) Demo.session_url)
    by session_is_ready.
  destruct (@dorequest_success Demo.Cpost 5 "GET" (@Demo.session Demo.Cpost)
              Demo.session_url Demo.served "<XSAMSData/>" Hr eq_refl eq_refl
              eq_refl) as [Hc Hx].
  split; [exact Hr|]. split.
  - rewrite Hc. reflexivity.
  - rewrite Hx. reflexivity.
Defined.

(** A POST answered with 204. *)
Lemma dorequest_no_data_witness :
  @ready Demo.Cempty (@Demo.session Demo.Cempty) Demo.session_url
  /\ fst (@dorequest Demo.Cempty 5 "POST" true (@Demo.session Demo.Cempty))
     = Ret None
  /\ status (self (snd (@dorequest Demo.Cempty 5 "POST" true
                          (@Demo.session Demo.Cempty)))) = 204.
Proof.
  assert (Hr : @ready Demo.Cempty (@Demo.session Demo.Cempty) Demo.session_url)
    by session_is_ready.
  assert (H200 : resp_status (mkResponse 204 "No Content" [] (inr "")) <> 200)
    by discriminate.
  assert (H400 : resp_status (mkResponse 204 "No Content" [] (inr "")) <> 400
                 \/ "POST" <> "POST") by (left; discriminate).
  destruct (@dorequest_no_data Demo.Cempty 5 "POST" true
              (@Demo.session Demo.Cempty) Demo.session_url
              (mkResponse 204 "No Content" [] (inr "")) Hr eq_refl H200 H400)
    as (Hd & Hst & _).
  split; [exact Hr|]. split; [|exact Hst]. rewrite Hd. reflexivity.
Defined.

(** [Request().dorequest()]. *)
Lemma no_address_no_traffic_witness :
  fst (@dorequest Demo.Cpost 5 "POST" true
         (mkMachine (Request_new true) Demo.world0))
  = Raise (AttributeError "querypath")
  /\ world (snd (@doheadrequest Demo.Cpost 5
                   (mkMachine (Request_new true) Demo.world0)))
     = Demo.world0.
Proof.
  destruct (@no_address_no_traffic Demo.Cpost 5 "POST" true
              (mkMachine (Request_new true) Demo.world0)
              (or_introl eq_refl)) as (Hd & _ & _ & Hw & _).
  split; [exact Hd|exact Hw].
Defined.

(** A node that refuses the connection. *)
Lemma transport_failure_propagates_witness :
  @ready Demo.Cdown (@Demo.session Demo.Cdown) Demo.session_url
  /\ fst (@dorequest Demo.Cdown 5 "POST" true (@Demo.session Demo.Cdown))
     = Raise (ExternalError "ConnectionRefusedError" "Connection refused")
  /\ status (self (snd (@dorequest Demo.Cdown 5 "POST" true
                          (@Demo.session Demo.Cdown)))) = 0.
Proof.
  assert (Hr : @ready Demo.Cdown (@Demo.session Demo.Cdown) Demo.session_url)
    by session_is_ready.
  destruct (@transport_failure_propagates Demo.Cdown 5 "POST" true
              (@Demo.session Demo.Cdown) Demo.session_url
              (ExternalError "ConnectionRefusedError" "Connection refused")
              Hr (or_introl eq_refl)) as (Hf & Hst & _).
  split; [exact Hr|]. split; [exact Hf|]. rewrite Hst. reflexivity.
Defined.

(** The requests of the example session go to its host, verified or plain. *)
Lemma requests_follow_the_session_witness :
  @ready Demo.Cpost (@Demo.session Demo.Cpost) Demo.session_url
  /\ exists ext ext',
      sent (world (snd (@dorequest Demo.Cpost 5 "POST" true
                          (@Demo.session Demo.Cpost))))
      = sent (world (@Demo.session Demo.Cpost)) ++ ext
      /\ sent (world (snd (@doheadrequest Demo.Cpost 5
                             (@Demo.session Demo.Cpost))))
         = sent (world (@Demo.session Demo.Cpost)) ++ ext'
      /\ forall rq,
          In rq (ext ++ ext') ->
          req_target rq = target Demo.session_url
          /\ req_host rq = netloc Demo.session_url
          /\ (unverified rq = true
              <-> scheme Demo.session_url = "https"
                  /\ verifyhttps (self (@Demo.session Demo.Cpost)) = false).
Proof.
  assert (Hr : @ready Demo.Cpost (@Demo.session Demo.Cpost) Demo.session_url)
    by session_is_ready.
  split; [exact Hr|].
  exact (@requests_follow_the_session Demo.Cpost 5 "POST" true
           (@Demo.session Demo.Cpost) Demo.session_url Hr).
Defined.

(** One HEAD request, answered with 204. *)
Lemma doheadrequest_single_request_witness :
  @ready Demo.Cempty (@Demo.session Demo.Cempty) Demo.session_url
  /\ sent (world (snd (@doheadrequest Demo.Cempty 5
                         (@Demo.session Demo.Cempty))))
     = sent (world (@Demo.session Demo.Cempty))
       ++ [request_of (@Demo.session Demo.Cempty) Demo.session_url 5 "HEAD"].
Proof.
  assert (Hr : @ready Demo.Cempty (@Demo.session Demo.Cempty) Demo.session_url)
    by session_is_ready.
  destruct (@doheadrequest_single_request Demo.Cempty 5
              (@Demo.session Demo.Cempty) Demo.session_url Hr) as [Hs _].
  split; [exact Hr|exact Hs].
Defined.

(** The head transaction on a node that never answers. *)
Lemma failed_head_drops_headers_witness :
  fst (@doheadrequest Demo.Csilent 5 (@Demo.session Demo.Csilent))
  = Raise TimeOutError
  /\ headers (self (snd (@doheadrequest Demo.Csilent 5
                           (@Demo.session Demo.Csilent)))) = Some ∅.
Proof.
  assert (Hf : fst (@doheadrequest Demo.Csilent 5 (@Demo.session Demo.Csilent))
               = Raise TimeOutError) by (by vm_compute).
  split; [exact Hf|].
  exact (@failed_head_drops_headers Demo.Csilent 5
           (@Demo.session Demo.Csilent) TimeOutError Hf).
Defined.

(** With status 0 the example session sends a HEAD request. *)
Lemma getlastmodified_refresh_witness :
  status (self (@Demo.session Demo.Cempty)) <> 200
  /\ sent (world (snd (@getlastmodified Demo.Cempty
                         (@Demo.session Demo.Cempty))))
     = sent (world (@Demo.session Demo.Cempty))
       ++ [request_of (@Demo.session Demo.Cempty) Demo.session_url 20 "HEAD"].
Proof.
  assert (Hr : @ready Demo.Cempty (@Demo.session Demo.Cempty) Demo.session_url)
    by session_is_ready.
  assert (Hst : status (self (@Demo.session Demo.Cempty)) <> 200)
    by (vm_compute; discriminate).
  destruct (@getlastmodified_refresh Demo.Cempty (@Demo.session Demo.Cempty))
    as [_ Hre].
  split; [exact Hst|]. exact (Hre Hst Demo.session_url Hr).
Defined.

(** A served GET, then the date: no headers to read. *)
Lemma getlastmodified_after_dorequest_witness :
  headers (self (@Demo.session Demo.Cpost)) = None
  /\ fst (@getlastmodified Demo.Cpost Demo.served_session)
     = Raise (AttributeError "headers").
Proof.
  assert (Hres : fst (@dorequest Demo.Cpost 5 "GET" true
                        (@Demo.session Demo.Cpost))
                 = Ret (Some (r.mkResult None (Some "<XSAMSData/>")
                                         (Some [("document", "<XSAMSData/>")]))))
    by (by vm_compute).
  pose proof (@getlastmodified_after_dorequest Demo.Cpost 5 "GET" true
                (@Demo.session Demo.Cpost) _ eq_refl Hres) as Hg.
  split; [reflexivity|]. unfold Demo.served_session. rewrite Hg. reflexivity.
Defined.

(** A result comes with status 200. *)
Lemma dorequest_result_status_witness :
  status (self Demo.served_session) = 200.
Proof.
  assert (Hres : fst (@dorequest Demo.Cpost 5 "GET" true
                        (@Demo.session Demo.Cpost))
                 = Ret (Some (r.mkResult None (Some "<XSAMSData/>")
                                         (Some [("document", "<XSAMSData/>")]))))
    by (by vm_compute).
  destruct (@dorequest_result_status Demo.Cpost 5 "GET" true
              (@Demo.session Demo.Cpost)) as [H200 _].
  exact (H200 _ Hres).
Defined.

(** The date of a node without content. *)
Lemma getlastmodified_without_date_witness :
  @ready Demo.Cempty (@Demo.session Demo.Cempty) Demo.session_url
  /\ fst (@getlastmodified Demo.Cempty (@Demo.session Demo.Cempty))
     = Raise (NoContentError "requets.getlastmodified").
Proof.
  assert (Hr : @ready Demo.Cempty (@Demo.session Demo.Cempty) Demo.session_url)
    by session_is_ready.
  assert (Hst : status (self (@Demo.session Demo.Cempty)) <> 200)
    by (vm_compute; discriminate).
  assert (Hne : resp_status (mkResponse 204 "No Content" [] (inr "")) <> 200)
    by discriminate.
  destruct (@getlastmodified_without_date Demo.Cempty
              (@Demo.session Demo.Cempty) Demo.session_url
              (mkResponse 204 "No Content" [] (inr "")) Hr Hst eq_refl Hne)
    as [H204 _].
  destruct (H204 eq_refl) as [Hf _].
  split; [exact Hr|exact Hf].
Defined.

(** The date of a node that gives one. *)
Lemma getlastmodified_with_date_witness :
  @ready Demo.Cdated (@Demo.session Demo.Cdated) Demo.session_url
  /\ fst (@getlastmodified Demo.Cdated (@Demo.session Demo.Cdated))
     = Ret (Some 0).
Proof.
  assert (Hr : @ready Demo.Cdated (@Demo.session Demo.Cdated) Demo.session_url)
    by session_is_ready.
  assert (Hst : status (self (@Demo.session Demo.Cdated)) <> 200)
    by (vm_compute; discriminate).
  destruct (@getlastmodified_with_date Demo.Cdated
              (@Demo.session Demo.Cdated) Demo.session_url
              (mkResponse 200 "OK"
                 [("last-modified", "Thu, 01 Jan 1970 00:00:00 GMT")]
                 (inr "")) Hr Hst eq_refl eq_refl)
    as [Hdate _].
  destruct (Hdate "Thu, 01 Jan 1970 00:00:00 GMT" 0) as [Hf _];
    [by vm_compute|by vm_compute|].
  split; [exact Hr|exact Hf].
Defined.

(** A session driven through a few calls. *)
Lemma calls_keep_normalized_witness :
  @normalized
    (@calls Demo.Cpost
       [CallSetbaseurl "http://node.example.org/tap";
        CallSetquery (QStr "SELECT SPECIES");
        CallDorequest 5 "POST" true;
        CallSetnode (NodeStr "cdms");
        CallGetlastmodified]
       (mkMachine (Request_new true) Demo.world0)).
Proof.
  apply (@calls_keep_normalized Demo.Cpost).
  - repeat constructor. discriminate.
  - exact I.
Defined.


(** No identifier at all. *)
Lemma species_request_plan_witness :
  @setnode Demo.Cpost (NodeStr "cdms")
     (mkMachine (Request_new true) Demo.world0)
  = (Ret tt, Demo.cdms_session Demo.Cpost)
  /\ @do_species_data_request Demo.Cpost (NodeStr "cdms") None None
       Demo.world0
     = (Ret None, world (Demo.cdms_session Demo.Cpost)).
Proof.
  assert (Hn : @setnode Demo.Cpost (NodeStr "cdms")
                 (mkMachine (Request_new true) Demo.world0)
               = (Ret tt, Demo.cdms_session Demo.Cpost)) by (by vm_compute).
  destruct (@species_request_plan Demo.Cpost (NodeStr "cdms") None None
              Demo.world0 _ Hn) as (_ & Hnone & _).
  split; [exact Hn|]. exact (Hnone eq_refl eq_refl).
Defined.

(** "7-123-x" asks for 123. *)
Lemma species_id_is_second_piece_witness :
  Py.contains "-" "7" = false
  /\ Py.contains "-" "123" = false
  /\ q.QueryText
       <$> query_ (self (snd (@species_attempt Demo.Cpost
                                (Some (SidStr "7-123-x"))
                                (Demo.cdms_session Demo.Cpost))))
     = Some "SELECT ALL WHERE SpeciesID=123".
Proof.
  destruct (@species_id_is_second_piece Demo.Cpost "7" "123" "x"
              (Demo.cdms_session Demo.Cpost) eq_refl eq_refl) as (H3 & _ & _).
  split; [reflexivity|]. split; [reflexivity|]. exact H3.
Defined.

(** The species of a node that answers 400 to everything. *)
Lemma species_of_node_witness :
  @request.getspecies Demo.C400 string Demo.atoms_only (NodeStr "cdms") "flat"
    Demo.world0
  = (Ret (request.Flat string ∅),
     world (snd (@getspecies Demo.C400 (Demo.cdms_session Demo.C400))))
  /\ @request.getspecies Demo.C400 string Demo.atoms_only (NodeStr "cdms")
       "struct" Demo.world0
     = (Raise (AttributeError "data"),
        world (snd (@getspecies Demo.C400 (Demo.cdms_session Demo.C400)))).
Proof.
  assert (Hn : @setnode Demo.C400 (NodeStr "cdms")
                 (mkMachine (Request_new true) Demo.world0)
               = (Ret tt, Demo.cdms_session Demo.C400)) by (by vm_compute).
  assert (Hg : @getspecies Demo.C400 (Demo.cdms_session Demo.C400)
               = (Ret None,
                  snd (@getspecies Demo.C400 (Demo.cdms_session Demo.C400))))
    by (by vm_compute).
  destruct (@species_of_node Demo.C400 string Demo.atoms_only (NodeStr "cdms")
              Demo.world0 _ _ _ Hn Hg) as [_ Hnone].
  destruct (Hnone eq_refl) as [Hflat Hstruct].
  split; [exact Hflat|]. apply Hstruct. discriminate.
Defined.

(** A name the registry does not know. *)
Lemma setnode_by_name_witness :
  @setnode Demo.Cpost (NodeStr "nowhere") Demo.served_session
  = (Raise NodeDoesNotExistError,
     mkMachine (with_reason "INIT" (with_status 0 (self Demo.served_session)))
               (world Demo.served_session)).
Proof.
  destruct (@setnode_by_name Demo.Cpost "nowhere" Demo.served_session)
    as [_ Hfail].
  exact (Hfail NodeDoesNotExistError eq_refl).
Defined.

End CoverageExamples.
